(** * Automated question generator: prompt construction and document assembly

    A shallow embedding of [high.py].  Python strings are sequences of
    Unicode code points, integers are [Z], [bytes] objects are sequences of
    octets, a [set] is a [gset], and calls that may raise are written in an
    exception monad, threaded through the document under construction where
    the source mutates it.  Standard input is the list of the lines still to
    be entered; console output ([print]) is not modelled. *)

From Stdlib Require Import ZArith List Lia Bool Ascii String DecimalString.
From stdpp Require Import base option list gmap.

Local Open Scope Z_scope.

(** ** Python values *)

(** A [str]: its code points, in order. *)
Definition str := list Z.

(** A [bytes] object: its octets, in order. *)
Definition bytes := list Z.

(** An ASCII literal of the source, as a [str]. *)
Definition lit (s : string) : str :=
  map (fun a => Z.of_N (N_of_ascii a)) (list_ascii_of_string s).

(** ["\n"], also [chr(10)]. *)
Definition nl : Z := 10.

Definition in_range (lo hi c : Z) : bool := (lo <=? c) && (c <=? hi).

(** An exception: its class and [str(e)]. *)
Record exn := Exn { exn_class : str; exn_msg : str }.

(** The outcome of a call that may raise. *)
Inductive result (A : Type) : Type :=
| Ok (a : A)
| Raise (e : exn).
Arguments Ok {A} a.
Arguments Raise {A} e.

#[global] Instance result_ret : MRet result := fun A a => Ok a.
#[global] Instance result_bind : MBind result := fun A B f m =>
  match m with
  | Ok a => f a
  | Raise e => Raise e
  end.

Definition raised {A} (r : result A) : bool :=
  match r with
  | Ok _ => false
  | Raise _ => true
  end.

(** ** Built-ins *)

Module Py.

(** [s.startswith(p)] *)
Fixpoint startswith (s p : str) {struct p} : bool :=
  match p, s with
  | [], _ => true
  | _ :: _, [] => false
  | c :: p', d :: s' => (c =? d) && startswith s' p'
  end.

(** [s.endswith(p)] *)
Definition endswith (s p : str) : bool := startswith (rev s) (rev p).

(** [p in s]: [p] occurs in [s] as a contiguous run of characters. *)
Fixpoint contains (s p : str) : bool :=
  startswith s p ||
  match s with
  | [] => false
  | _ :: s' => contains s' p
  end.

(** [sep.join(parts)] *)
Fixpoint join (sep : str) (parts : list str) : str :=
  match parts with
  | [] => []
  | [p] => p
  | p :: rest => p ++ sep ++ join sep rest
  end.

(** [s.split("\n")] *)
Fixpoint split_nl (s : str) : list str :=
  match s with
  | [] => [[]]
  | c :: rest =>
      if c =? nl then [] :: split_nl rest
      else match split_nl rest with
           | l :: ls => (c :: l) :: ls
           | [] => [[c]]
           end
  end.

(** [c.isspace()] *)
Definition isspace (c : Z) : bool :=
  in_range 9 13 c || in_range 28 32 c || (c =? 133) || (c =? 160) ||
  (c =? 5760) || in_range 8192 8202 c || (c =? 8232) || (c =? 8233) ||
  (c =? 8239) || (c =? 8287) || (c =? 12288).

Fixpoint lstrip (s : str) : str :=
  match s with
  | [] => []
  | c :: s' => if isspace c then lstrip s' else s
  end.

Definition rstrip (s : str) : str := rev (lstrip (rev s)).

(** [s.strip()] *)
Definition strip (s : str) : str := rstrip (lstrip s).

(** A character that ends a line for [str.splitlines]. *)
Definition line_boundary (c : Z) : bool :=
  in_range 10 13 c || in_range 28 30 c || (c =? 133) || (c =? 8232) || (c =? 8233).

(** [s.splitlines()]: ["\r\n"] is one boundary, and a final boundary opens
    no further line. *)
Fixpoint splitlines (s : str) : list str :=
  match s with
  | [] => []
  | c :: rest =>
      if line_boundary c then
        [] :: match rest with
              | d :: rest' =>
                  if (c =? 13) && (d =? 10) then splitlines rest' else splitlines rest
              | [] => splitlines rest
              end
      else match splitlines rest with
           | l :: ls => (c :: l) :: ls
           | [] => [[c]]
           end
  end.

(** A slice bound brought into [0 .. len], a negative one counted from the
    end. *)
Definition slice_index (len i : Z) : Z :=
  if i <? 0 then Z.max 0 (len + i) else Z.min i len.

(** [s[start:stop]] *)
Definition slice (s : str) (start stop : Z) : str :=
  let len := Z.of_nat (length s) in
  let a := slice_index len start in
  let b := slice_index len stop in
  take (Z.to_nat (b - a)) (drop (Z.to_nat a) s).

(** [chr(i)] *)
Definition chr (i : Z) : result str :=
  if in_range 0 1114111 i then Ok [i]
  else Raise (Exn (lit "ValueError") (lit "chr() arg not in range(0x110000)")).

(** [range(n)] *)
Definition range (n : Z) : list Z := map Z.of_nat (seq 0 (Z.to_nat n)).

(** [enumerate(xs, start)] *)
Fixpoint enumerate {A} (xs : list A) (start : Z) : list (Z * A) :=
  match xs with
  | [] => []
  | x :: xs' => (start, x) :: enumerate xs' (start + 1)
  end.

(** [str(i)] for an [int], which is also how an f-string formats it. *)
Definition str_of_int (i : Z) : str := lit (NilZero.string_of_int (Z.to_int i)).

End Py.

(** ** The option pattern *)

Module Re.

(** The character class [[A-Ea-e]]. *)
Definition option_letter (c : Z) : bool := in_range 65 69 c || in_range 97 101 c.

(** [re.findall(r"\([A-Ea-e]\)", s)]: the matches met by a left-to-right
    scan that resumes after the end of each match. *)
Fixpoint findall_option (s : str) : list str :=
  match s with
  | [] => []
  | c :: rest =>
      match rest with
      | l :: r :: rest' =>
          if (c =? 40) && option_letter l && (r =? 41)
          then [c; l; r] :: findall_option rest'
          else findall_option rest
      | _ => findall_option rest
      end
  end.

End Re.

(** ** [textwrap.dedent] *)

Module Textwrap.

Definition blank (c : Z) : bool := (c =? 32) || (c =? 9).

(** A line of spaces and tabs only, or an empty one: either way the line
    is empty once the whitespace-only lines have been emptied. *)
Definition whitespace_only (l : str) : bool := forallb blank l.

(** The leading run of spaces and tabs of a line, which is what the first
    group of the leading-whitespace pattern captures. *)
Fixpoint leading_whitespace (l : str) : str :=
  match l with
  | [] => []
  | c :: l' => if blank c then c :: leading_whitespace l' else []
  end.

Fixpoint common_prefix (a b : str) : str :=
  match a, b with
  | c :: a', d :: b' => if c =? d then c :: common_prefix a' b' else []
  | _, _ => []
  end.

(** The margin: the longest common leading whitespace of the lines that
    have a character other than space and tab; [None] without such a line. *)
Definition margin (lines : list str) : option str :=
  fold_left
    (fun m indent =>
       match m with
       | None => Some indent
       | Some m' => Some (common_prefix m' indent)
       end)
    (map leading_whitespace (List.filter (fun l => negb (whitespace_only l)) lines))
    None.

(** The final substitution on one line: the margin is removed where a line
    starts with it. *)
Definition remove_margin (m : str) (l : str) : str :=
  if Py.startswith l m then drop (length m) l else l.

Definition dedent (text : str) : str :=
  let lines :=
    map (fun l => if whitespace_only l then [] else l) (Py.split_nl text) in
  match margin lines with
  | Some (c :: m) => Py.join [nl] (map (remove_margin (c :: m)) lines)
  | _ => Py.join [nl] lines
  end.

End Textwrap.

(** ** The UTF-8 codec *)

Module Utf8.

(** The [errors] argument of [bytes.decode]. *)
Inductive errors := Strict | Replace.

Definition encode_error : exn :=
  Exn (lit "UnicodeEncodeError") (lit "surrogates not allowed").

Definition decode_error : exn :=
  Exn (lit "UnicodeDecodeError") (lit "invalid utf-8 byte sequence").

Definition low6 (c : Z) : Z := Z.lor 128 (Z.land c 63).

(** The encoding of one code point; a surrogate has none. *)
Definition encode_char (c : Z) : result bytes :=
  if in_range 0 127 c then Ok [c]
  else if in_range 128 2047 c then
    Ok [Z.lor 192 (Z.shiftr c 6); low6 c]
  else if in_range 55296 57343 c then Raise encode_error
  else if in_range 2048 65535 c then
    Ok [Z.lor 224 (Z.shiftr c 12); low6 (Z.shiftr c 6); low6 c]
  else if in_range 65536 1114111 c then
    Ok [Z.lor 240 (Z.shiftr c 18); low6 (Z.shiftr c 12); low6 (Z.shiftr c 6); low6 c]
  else Raise encode_error.

(** [s.encode("utf-8")] *)
Fixpoint encode (s : str) : result bytes :=
  match s with
  | [] => Ok []
  | c :: s' =>
      b ← encode_char c;
      bs ← encode s';
      Ok (b ++ bs)
  end.

Definition continuation (b : Z) : bool := in_range 128 191 b.

(** The range of the second byte, which depends on the lead byte. *)
Definition second_lo (b0 : Z) : Z :=
  if b0 =? 224 then 160 else if b0 =? 240 then 144 else 128.
Definition second_hi (b0 : Z) : Z :=
  if b0 =? 237 then 159 else if b0 =? 244 then 143 else 191.

Definition bits (b mask : Z) (shift : Z) : Z := Z.shiftl (Z.land b mask) shift.

Definition emit (c : Z) (rest : result str) : result str :=
  match rest with
  | Ok s => Ok (c :: s)
  | Raise e => Raise e
  end.

(** An ill-formed sequence: an error when strict, else one U+FFFD for its
    longest well-formed start, the scan resuming at the offending byte. *)
Definition ill (mode : errors) (rest : result str) : result str :=
  match mode with
  | Strict => Raise decode_error
  | Replace => emit 65533 rest
  end.

(** [bs.decode("utf-8", errors=mode)] *)
Fixpoint decode (mode : errors) (bs : bytes) : result str :=
  match bs with
  | [] => Ok []
  | b0 :: r0 =>
      if in_range 0 127 b0 then emit b0 (decode mode r0)
      else if in_range 194 223 b0 then
        match r0 with
        | b1 :: r1 =>
            if continuation b1
            then emit (Z.lor (bits b0 31 6) (bits b1 63 0)) (decode mode r1)
            else ill mode (decode mode r0)
        | [] => ill mode (decode mode r0)
        end
      else if in_range 224 239 b0 then
        match r0 with
        | b1 :: r1 =>
            if in_range (second_lo b0) (second_hi b0) b1 then
              match r1 with
              | b2 :: r2 =>
                  if continuation b2
                  then emit (Z.lor (bits b0 15 12) (Z.lor (bits b1 63 6) (bits b2 63 0)))
                            (decode mode r2)
                  else ill mode (decode mode r1)
              | [] => ill mode (decode mode r1)
              end
            else ill mode (decode mode r0)
        | [] => ill mode (decode mode r0)
        end
      else if in_range 240 244 b0 then
        match r0 with
        | b1 :: r1 =>
            if in_range (second_lo b0) (second_hi b0) b1 then
              match r1 with
              | b2 :: r2 =>
                  if continuation b2 then
                    match r2 with
                    | b3 :: r3 =>
                        if continuation b3
                        then emit (Z.lor (bits b0 7 18)
                                     (Z.lor (bits b1 63 12)
                                        (Z.lor (bits b2 63 6) (bits b3 63 0))))
                                  (decode mode r3)
                        else ill mode (decode mode r2)
                    | [] => ill mode (decode mode r2)
                    end
                  else ill mode (decode mode r1)
              | [] => ill mode (decode mode r1)
              end
            else ill mode (decode mode r0)
        | [] => ill mode (decode mode r0)
        end
      else ill mode (decode mode r0)
  end.

End Utf8.

(** ** [subprocess] *)

(** What [subprocess.run(..., capture_output=True)] returns once the child
    has run, whatever its exit status. *)
Record CompletedProcess := {
  returncode : Z;
  stdout : bytes;
  stderr : bytes
}.

(** ** [requests] *)

Record Response := {
  status_code : Z;
  reason : str;
  url : str;
  content : bytes
}.

(** [response.raise_for_status()] *)
Definition raise_for_status (r : Response) : result unit :=
  if in_range 400 499 (status_code r) then
    Raise (Exn (lit "HTTPError")
             (Py.str_of_int (status_code r) ++ lit " Client Error: " ++ reason r ++
              lit " for url: " ++ url r))
  else if in_range 500 599 (status_code r) then
    Raise (Exn (lit "HTTPError")
             (Py.str_of_int (status_code r) ++ lit " Server Error: " ++ reason r ++
              lit " for url: " ++ url r))
  else Ok ().

(** ** [python-docx] and the file system *)

Module Docx.

(** Where [add_picture] takes the image from. *)
Inductive image_source :=
| FromStream (data : bytes)
| FromPath (p : str).

(** The body of a document, block by block. *)
Inductive block :=
| Heading (text : str) (level : Z)
| Paragraph (text : str)
| Picture (src : image_source) (width_inches : Z).

Definition Document := list block.

#[global] Instance image_source_eq_dec : EqDecision image_source.
Proof. solve_decision. Defined.

#[global] Instance block_eq_dec : EqDecision block.
Proof. solve_decision. Defined.

(** A call on the document: it may change it and may raise; what it has
    appended before raising stays. *)
Definition docx (A : Type) : Type := Document -> Document * result A.

#[global] Instance docx_ret : MRet docx := fun A a d => (d, Ok a).
#[global] Instance docx_bind : MBind docx := fun A B f m d =>
  match m d with
  | (d', Ok a) => f a d'
  | (d', Raise e) => (d', Raise e)
  end.

(** A call that leaves the document alone. *)
Definition lift {A} (r : result A) : docx A := fun d => (d, r).

(** [try: body except Exception as e: handler(e)] *)
Definition try_except {A} (body : docx A) (handler : exn -> docx A) : docx A :=
  fun d =>
    match body d with
    | (d', Ok a) => (d', Ok a)
    | (d', Raise e) => handler e d'
    end.

(** [for x in xs: body(x)] *)
Fixpoint for_each {A} (xs : list A) (body : A -> docx unit) : docx unit :=
  match xs with
  | [] => mret ()
  | x :: xs' => _ ← body x; for_each xs' body
  end.

(** A character that lxml accepts in the text of an element: no control
    character but tab, line feed and carriage return, no surrogate, and
    neither U+FFFE nor U+FFFF. *)
Definition xml_char (c : Z) : bool :=
  (c =? 9) || (c =? 10) || (c =? 13) || in_range 32 55295 c ||
  in_range 57344 65533 c || in_range 65536 1114111 c.

(** A text made of such characters only. *)
Definition xml_compatible (text : str) : bool := forallb xml_char text.

Definition xml_error : exn :=
  Exn (lit "ValueError")
    (lit "All strings must be XML compatible: Unicode or ASCII, no NULL bytes or control characters").

(** Setting the text of one text element: the text is encoded, which a
    surrogate prevents, and then checked. *)
Definition set_text (segment : str) : result unit :=
  if existsb (in_range 55296 57343) segment then Raise Utf8.encode_error
  else if xml_compatible segment then Ok ()
  else Raise xml_error.

(** A tab or a line break, for which a run gets an element of its own. *)
Definition separator (c : Z) : bool := (c =? 9) || (c =? 10) || (c =? 13).

(** Writing a text into a new run: the characters between two separators
    are written as one text element when a separator or the end is met;
    [buffer] holds the characters met since the last separator, [written]
    what the run holds so far, which is what stays when an element is
    refused. *)
Fixpoint run_text (text buffer written : str) : str * result unit :=
  match text with
  | [] =>
      match set_text buffer with
      | Ok _ => (written ++ buffer, Ok ())
      | Raise e => (written, Raise e)
      end
  | c :: text' =>
      if separator c then
        match set_text buffer with
        | Ok _ => run_text text' [] (written ++ buffer ++ [c])
        | Raise e => (written, Raise e)
        end
      else run_text text' (buffer ++ [c]) written
  end.

(** [doc.add_paragraph(text)]: the paragraph is appended first and the text
    written into it; when the text is refused the paragraph stays, with the
    part of the text written before. *)
Definition add_paragraph (text : str) : docx unit :=
  fun d =>
    match run_text text [] [] with
    | (_, Ok _) => (d ++ [Paragraph text], Ok ())
    | (written, Raise e) => (d ++ [Paragraph written], Raise e)
    end.

(** [doc.add_heading(text, level)]: the paragraph gets its heading style
    once its text is written. *)
Definition add_heading (text : str) (level : Z) : docx unit :=
  if in_range 0 9 level then
    fun d =>
      match run_text text [] [] with
      | (_, Ok _) => (d ++ [Heading text level], Ok ())
      | (written, Raise e) => (d ++ [Paragraph written], Raise e)
      end
  else lift (Raise (Exn (lit "ValueError")
                      (lit "level must be in range 0-9, got " ++ Py.str_of_int level))).

(** [doc.add_picture(src, width=Inches(w))]: a new paragraph is appended
    first and the image is loaded into it; when loading raises, the
    paragraph stays, empty. *)
Definition add_picture (load_image : image_source -> result unit)
    (src : image_source) (w : Z) : docx unit :=
  fun d =>
    match load_image src with
    | Ok _ => (d ++ [Picture src w], Ok ())
    | Raise e => (d ++ [Paragraph []], Raise e)
    end.

(** A path, component by component from the root. *)
Definition path := list str.

(** [p.parent] *)
Definition parent (p : path) : path := take (length p - 1)%nat p.

(** The directories and the documents on disk. *)
Record filesystem := {
  dirs : gset path;
  files : gmap path Document
}.

(** [doc.save(str(p))]: the file is opened for writing, which needs its
    directory to exist and [p] not to be a directory, and receives the
    document. *)
Definition save (doc : Document) (p : path) (fs : filesystem)
    : filesystem * result unit :=
  if bool_decide (p ∈ dirs fs) then
    (fs, Raise (Exn (lit "IsADirectoryError") (lit "Is a directory")))
  else if bool_decide (parent p ∈ dirs fs) then
    ({| dirs := dirs fs; files := <[p := doc]> (files fs) |}, Ok ())
  else
    (fs, Raise (Exn (lit "FileNotFoundError") (lit "No such file or directory"))).

(** The path and its ancestors, the root first. *)
Definition ancestors (p : path) : list path :=
  map (fun k => take k p) (seq 0 (S (length p))).

(** [p.mkdir(parents=True, exist_ok=True)] *)
Definition mkdir_parents (p : path) (fs : filesystem) : filesystem * result unit :=
  if existsb (fun a => bool_decide (is_Some (files fs !! a))) (ancestors p) then
    (fs, Raise (Exn (lit "FileExistsError") (lit "File exists")))
  else
    ({| dirs := dirs fs ∪ list_to_set (ancestors p); files := files fs |}, Ok ()).

End Docx.

(** ** The program *)

Definition LOCAL_MODEL : str := lit "llama3".

Definition CURRICULUM : list (str * str * str) :=
  [ (lit "Quantitative Math", lit "Problem Solving", lit "Numbers and Operations");
    (lit "Quantitative Math", lit "Problem Solving", lit "Algebra");
    (lit "Quantitative Math", lit "Geometry and Measurement", lit "Area & Volume");
    (lit "Quantitative Math", lit "Numbers and Operations", lit "Fractions, Decimals, & Percents");
    (lit "Quantitative Math", lit "Data Analysis & Probability", lit "Probability (Basic, Compound Events)");
    (lit "Quantitative Math", lit "Reasoning", lit "Word Problems") ].

(** A line of a literal, with the newline that ends it. *)
Definition ln (s : string) : str := lit s ++ [nl].

(** [detect_options]: the number of distinct matches. *)
Definition detect_options (base_question : str) : Z :=
  let matches := Re.findall_option base_question in
  Z.of_nat (size (list_to_set matches : gset str)).

(** The tag that [build_question_format] appends at index [i]. *)
Definition option_tag (option_count i : Z) : result str :=
  if i =? option_count - 1 then Ok (lit "@@option <Correct Option>")
  else
    letter ← Py.chr (65 + i);
    Ok (lit "@option <Option " ++ letter ++ lit ">").

(** The loop of [build_question_format] over the indices still to come,
    [option_tags] being the list built so far. *)
Fixpoint option_tags_loop (option_count : Z) (indices : list Z)
    (option_tags : list str) : result (list str) :=
  match indices with
  | [] => Ok option_tags
  | i :: indices' =>
      tag ← option_tag option_count i;
      option_tags_loop option_count indices' (option_tags ++ [tag])
  end.

(** [f"- {s} > {u} > {t}"] *)
Definition curriculum_line (entry : str * str * str) : str :=
  let '(s, u, t) := entry in
  lit "- " ++ s ++ lit " > " ++ u ++ lit " > " ++ t.

(** The f-string of [build_question_format], before [textwrap.dedent]: the
    text above the option block, the block on its indented line, and the
    text below it, which ends with the curriculum list and the indentation
    of the closing quotes. *)
Definition format_above : str :=
  [nl] ++
  ln "    @title <Assessment title, meaningful>" ++
  ln "    @description <Short assessment description>" ++
  ln "" ++
  ln "    // Use this block for each question when adding Multiple Choice Questions (MCQ)" ++
  ln "    @question <Question text here>" ++
  ln "    @instruction <Instruction here>" ++
  ln "    @difficulty <easy|moderate|hard>" ++
  ln "    @Order <Question number>".

Definition format_below : str :=
  ln "    @explanation <Explanation for correct answer>" ++
  ln "    @subject <Choose exactly from curriculum list>" ++
  ln "    @unit <Choose exactly from curriculum list>" ++
  ln "    @topic <Choose exactly from curriculum list>" ++
  ln "    @plusmarks 1" ++
  ln "" ++
  ln "    The subject, unit, and topic must come from this curriculum list:" ++
  lit "    " ++ Py.join [nl] (map curriculum_line CURRICULUM) ++ [nl] ++
  lit "    ".

Definition question_format_text (options_block : str) : str :=
  format_above ++ lit "    " ++ options_block ++ [nl] ++ format_below.

Definition build_question_format (option_count : Z) : result str :=
  option_tags ← option_tags_loop option_count (Py.range option_count) [];
  let options_block := Py.join [nl] option_tags in
  Ok (Textwrap.dedent (question_format_text options_block)).

Definition build_prompt (base_question : str) (order_num : Z) : result str :=
  let option_count := detect_options base_question in
  question_format ← build_question_format option_count;
  Ok ([nl] ++
      ln "You are an expert educational content creator." ++
      ln "Generate ONE new question that is exactly the same type as the Base Question." ++
      lit "Do not change the mathematical concept " ++ [8212] ++
      ln " only change surface details like names, objects, and numbers." ++
      ln "Keep LaTeX math notation unchanged." ++
      ln "Preserve any image references in ![](url) format." ++
      ln "" ++
      ln "Base Question:" ++
      base_question ++ [nl] ++
      ln "" ++
      ln "Follow this exact output format (tags must be on separate lines):" ++
      question_format ++ [nl] ++
      ln "" ++
      ln "Ensure:" ++
      ln "- Same math skill tested." ++
      ln "- Correct answer logic matches the base question's method." ++
      ln "- Subject, unit, and topic tags match EXACTLY from the curriculum list." ++
      ln "- @subject, @unit, @topic are each on their own line.").

(** The state [init_app] works on: the disk and the global [OUTPUT_DOCX]. *)
Record app_state := {
  fs : Docx.filesystem;
  OUTPUT_DOCX : Docx.path
}.

(** What the program finds around it: the home directory, the clock, the
    programs on the search path, the generator process, the network and the
    images on disk. *)
Record World := {
  (** [Path.home()], as a path. *)
  home : Docx.path;
  (** [datetime.now().strftime('%Y%m%d_%H%M%S')] *)
  timestamp : str;
  (** [shutil.which] *)
  which : str -> option str;
  (** [subprocess.run(argv, input=..., capture_output=True)]: it raises when
      the program cannot be started. *)
  subprocess_run : list str -> bytes -> result CompletedProcess;
  (** [requests.get] *)
  requests_get : str -> result Response;
  (** [Path(p).exists()] *)
  path_exists : str -> result bool;
  (** Whether python-docx can load an image from a source. *)
  load_image : Docx.image_source -> result unit
}.

Section Program.

Context (w : World).

Definition init_app (use_local_model : bool) (st : app_state)
    : app_state * result unit :=
  let output :=
    home w ++ [lit "Documents";
             lit "generated_questions_" ++ timestamp w ++ lit ".docx"] in
  match Docx.mkdir_parents (Docx.parent output) (fs st) with
  | (fs', Raise e) => ({| fs := fs'; OUTPUT_DOCX := output |}, Raise e)
  | (fs', Ok _) =>
      let st' := {| fs := fs'; OUTPUT_DOCX := output |} in
      if use_local_model then
        match which w (lit "ollama") with
        | None =>
            (st', Raise (Exn (lit "EnvironmentError")
                           ([9888; 32] ++
                            lit "Ollama not found. Install from https://ollama.ai and run:" ++
                            [nl] ++ lit "ollama pull llama3")))
        | Some _ => (st', Ok ())
        end
      else (st', Ok ())
  end.

Definition call_llm (prompt : str) (use_local_model : bool) : result str :=
  if use_local_model then
    input ← Utf8.encode prompt;
    process ← subprocess_run w [lit "ollama"; lit "run"; LOCAL_MODEL] input;
    text ← Utf8.decode Utf8.Replace (stdout process);
    Ok (Py.strip text)
  else
    Ok (lit "@title Placeholder" ++ [nl] ++
        lit "@description This is a placeholder question" ++ [nl] ++
        lit "...").

(** The [try] block of [save_to_docx] for the reference [img_url]. *)
Definition embed_image (img_url : str) : Docx.docx unit :=
  if Py.startswith img_url (lit "http") then
    response ← Docx.lift (requests_get w img_url);
    _ ← Docx.lift (raise_for_status response);
    Docx.add_picture (load_image w) (Docx.FromStream (content response)) 4
  else
    found ← Docx.lift (path_exists w img_url);
    if (found : bool) then Docx.add_picture (load_image w) (Docx.FromPath img_url) 4
    else Docx.add_paragraph (lit "[Image not found: " ++ img_url ++ lit "]").

(** The body of the inner loop of [save_to_docx]. *)
Definition add_line (line : str) : Docx.docx unit :=
  if Py.startswith (Py.strip line) (lit "![](") && Py.endswith (Py.strip line) (lit ")")
  then
    let img_url := Py.strip (Py.slice (Py.strip line) 4 (-1)) in
    Docx.try_except (embed_image img_url)
      (fun e =>
         Docx.add_paragraph
           (lit "[Failed to load image: " ++ img_url ++ lit "] Error: " ++ exn_msg e))
  else Docx.add_paragraph line.

(** The body of the outer loop of [save_to_docx]. *)
Definition add_output (numbered : Z * str) : Docx.docx unit :=
  let '(i, out) := numbered in
  _ ← Docx.add_paragraph (lit "--- Question " ++ Py.str_of_int i ++ lit " ---");
  Docx.for_each (Py.splitlines out) add_line.

(** [save_to_docx] up to the call of [doc.save], on a new document. *)
Definition build_document (outputs : list str) : Docx.Document * result unit :=
  (_ ← Docx.add_heading (lit "Generated Questions") 1;
   Docx.for_each (Py.enumerate outputs 1) add_output) [].

Definition save_to_docx (outputs : list str) (path : Docx.path)
    (disk : Docx.filesystem) : Docx.filesystem * result unit :=
  match build_document outputs with
  | (doc, Ok _) => Docx.save doc path disk
  | (_, Raise e) => (disk, Raise e)
  end.

(** *** Derived notions, used to state the properties *)

(** The remote fetch of the [try] block: the request, then the status
    check. *)
Definition fetch (img_url : str) : result bytes :=
  response ← requests_get w img_url;
  _ ← raise_for_status response;
  Ok (content response).

(** The reference a line holds when it has the shape of an image
    reference. *)
Definition image_reference (line : str) : option str :=
  if Py.startswith (Py.strip line) (lit "![](") && Py.endswith (Py.strip line) (lit ")")
  then Some (Py.strip (Py.slice (Py.strip line) 4 (-1)))
  else None.

(** The blocks one line adds to a document. *)
Definition line_blocks (line : str) : list Docx.block := fst (add_line line []).

(** The blocks one output adds: its header, then the blocks of its lines. *)
Definition section_blocks (numbered : Z * str) : list Docx.block :=
  Docx.Paragraph (lit "--- Question " ++ Py.str_of_int (fst numbered) ++ lit " ---")
  :: concat (map line_blocks (Py.splitlines (snd numbered))).

End Program.

(** ** What the claims observe *)

(** [p] occurs in [s] as a contiguous run of characters. *)
Definition substring (p s : str) : Prop :=
  exists pre post, s = pre ++ p ++ post.

(** The marker ["(X)"] for the letter with code [x]. *)
Definition marker (x : Z) : str := [40; x; 41].

(** The codes of A to E and of a to e. *)
Definition option_letters : list Z := [65; 66; 67; 68; 69; 97; 98; 99; 100; 101].

(** The ten strings the option pattern can match. *)
Definition markers : list str := map marker option_letters.

(** The number of markers occurring in [s], a marker and its twin in the
    other case counted separately. *)
Definition distinct_markers (s : str) : Z :=
  Z.of_nat (length (List.filter (fun m => Py.contains s m) markers)).

(** The number of letters A to E whose marker occurs in [s] in either case:
    the count that takes ["(A)"] and ["(a)"] as one. *)
Definition distinct_markers_nocase (s : str) : Z :=
  Z.of_nat (length (List.filter
    (fun x => Py.contains s (marker x) || Py.contains s (marker (x + 32)))
    [65; 66; 67; 68; 69])).

(** The lettered tag of index [i], and the tag of the correct option. *)
Definition lettered_tag (i : Z) : str := lit "@option <Option " ++ [65 + i] ++ lit ">".
Definition correct_tag : str := lit "@@option <Correct Option>".

(** The lines of a template, without their indentation. *)
Definition template_lines (template : str) : list str :=
  map Py.lstrip (Py.split_nl template).

(** The lines that carry an option tag of either kind, in order. *)
Definition option_lines (template : str) : list str :=
  List.filter (fun l => Py.contains l (lit "@option")) (template_lines template).

(** The number of lettered [@option] lines and of [@@option] lines. *)
Definition count_lettered (template : str) : Z :=
  Z.of_nat (length (List.filter (fun l => Py.startswith l (lit "@option"))
                      (template_lines template))).
Definition count_correct (template : str) : Z :=
  Z.of_nat (length (List.filter (fun l => Py.startswith l (lit "@@option"))
                      (template_lines template))).

(** The lines of a returned template above the option block. *)
Definition format_head : list str :=
  [ [];
    lit "    @title <Assessment title, meaningful>";
    lit "    @description <Short assessment description>";
    [];
    lit "    // Use this block for each question when adding Multiple Choice Questions (MCQ)";
    lit "    @question <Question text here>";
    lit "    @instruction <Instruction here>";
    lit "    @difficulty <easy|moderate|hard>";
    lit "    @Order <Question number>" ].

(** The lines of the option block: the first tag keeps the indentation of
    the template line, the others start at the first column, and without a
    tag the line is empty. *)
Definition option_block_lines (tags : list str) : list str :=
  match tags with
  | [] => [[]]
  | t :: ts => (lit "    " ++ t) :: ts
  end.

(** The lines of a returned template below the option block. *)
Definition format_tail : list str :=
  [ lit "    @explanation <Explanation for correct answer>";
    lit "    @subject <Choose exactly from curriculum list>";
    lit "    @unit <Choose exactly from curriculum list>";
    lit "    @topic <Choose exactly from curriculum list>";
    lit "    @plusmarks 1";
    [];
    lit "    The subject, unit, and topic must come from this curriculum list:";
    lit "    - Quantitative Math > Problem Solving > Numbers and Operations";
    lit "- Quantitative Math > Problem Solving > Algebra";
    lit "- Quantitative Math > Geometry and Measurement > Area & Volume";
    lit "- Quantitative Math > Numbers and Operations > Fractions, Decimals, & Percents";
    lit "- Quantitative Math > Data Analysis & Probability > Probability (Basic, Compound Events)";
    lit "- Quantitative Math > Reasoning > Word Problems";
    [] ].

(** The tags [build_question_format] builds for [n] options. *)
Definition option_tags (n : Z) : list str :=
  map (fun i => if i =? n - 1 then correct_tag else lettered_tag i) (Py.range n).

(** What [textwrap.dedent] makes of a line when no margin is removed. *)
Definition emptied (l : str) : str := if Textwrap.whitespace_only l then [] else l.

(** A tag is one of the two kinds, the lettered ones from index 0 on. *)
Definition tag_shaped (t : str) : Prop :=
  t = correct_tag \/ exists i, 0 <= i /\ t = lettered_tag i.

(** *** Sample surroundings *)

(** A machine with no network and no image on disk, on which the generator
    exits with status 1 and prints nothing. *)
Definition offline : World := {|
  home := [lit "home"; lit "user"];
  timestamp := lit "20240101_120000";
  which := fun _ => Some (lit "/usr/bin/ollama");
  subprocess_run := fun _ _ =>
    Ok {| returncode := 1; stdout := []; stderr := lit "Error: model not found" |};
  requests_get := fun _ =>
    Raise (Exn (lit "ConnectionError") (lit "connection refused"));
  path_exists := fun _ => Ok false;
  load_image := fun _ => Ok ()
|}.

(** The same machine with a generator that exits with status 0 and prints
    the byte FF, which no UTF-8 text contains, before ["ok"]. *)
Definition garbled : World := {|
  home := home offline;
  timestamp := timestamp offline;
  which := which offline;
  subprocess_run := fun _ _ =>
    Ok {| returncode := 0; stdout := [255; 111; 107]; stderr := [] |};
  requests_get := requests_get offline;
  path_exists := path_exists offline;
  load_image := load_image offline
|}.

(** A disk with the root directory only, and one that has [/out] too. *)
Definition bare_disk : Docx.filesystem :=
  {| Docx.dirs := {[ [] ]}; Docx.files := ∅ |}.

(** ** The session *)

(** [input()] at the end of standard input. *)
Definition EOFError : exn := Exn (lit "EOFError") (lit "EOF when reading a line").

(** The lower-case form of an ASCII letter. *)
Definition ascii_lower (c : Z) : Z := if in_range 65 90 c then c + 32 else c.

(** [line.strip().lower() == "done"]: the ASCII capitals are the only
    characters outside d, o, n, e that [lower] turns into one of them, so
    the ASCII mapping decides the test. *)
Definition is_done (line : str) : bool :=
  bool_decide (map ascii_lower (Py.strip line) = lit "done").

(** Where the loops of [main] stand when they call [input()]: in the inner
    loop with the lines read so far, or at the question about an image,
    with the text of the base question and the line that ended the inner
    loop. *)
Inductive reading :=
| Lines (lines : list str)
| Image (base_question_text : str) (line : str).

(** The two loops of [main] that read the base questions, one call of
    [input()] at a time; [base_questions] is the list built so far. *)
Fixpoint read_questions (stdin : list str) (at_ : reading)
    (base_questions : list str) : result (list str) :=
  match stdin with
  | [] => Raise EOFError
  | entered :: stdin' =>
      match at_ with
      | Lines lines =>
          let line := entered in
          let ended :=
            if bool_decide (Py.strip line = []) && negb (bool_decide (lines = []))
            then true
            else if is_done line then true
            else false in
          if ended then
            if bool_decide (lines = []) then
              if is_done line then Ok base_questions
              else read_questions stdin' (Lines []) base_questions
            else read_questions stdin' (Image (Py.join [nl] lines) line) base_questions
          else read_questions stdin' (Lines (lines ++ [line])) base_questions
      | Image base_question_text line =>
          let image_input := Py.strip entered in
          let base_question_text :=
            if bool_decide (image_input = []) then base_question_text
            else base_question_text ++ [nl; nl] ++ lit "![](" ++ image_input ++ lit ")" in
          let base_questions := base_questions ++ [base_question_text] in
          if is_done line then Ok base_questions
          else read_questions stdin' (Lines []) base_questions
      end
  end.

(** The loop of [main] that generates, [results] being the list built so
    far. *)
Fixpoint generate (w : World) (numbered : list (Z * str)) (results : list str)
    : result (list str) :=
  match numbered with
  | [] => Ok results
  | (i, bq) :: numbered' =>
      prompt ← build_prompt bq i;
      out ← call_llm w prompt true;
      generate w numbered' (results ++ [out])
  end.

Definition main (w : World) (stdin : list str) (st : app_state)
    : app_state * result unit :=
  let use_local := true in
  match init_app w use_local st with
  | (st, Raise e) => (st, Raise e)
  | (st, Ok _) =>
      match read_questions stdin (Lines []) [] with
      | Raise e => (st, Raise e)
      | Ok base_questions =>
          match generate w (Py.enumerate base_questions 1) [] with
          | Raise e => (st, Raise e)
          | Ok results =>
              let '(disk, r) := save_to_docx w results (OUTPUT_DOCX st) (fs st) in
              ({| fs := disk; OUTPUT_DOCX := OUTPUT_DOCX st |}, r)
          end
      end
  end.

(** *** Notions used to state the further properties *)

(** What is entered for one base question: its lines, an empty line, and
    the answer to the question about an image. *)
Definition entered_question (q : list str * str) : list str :=
  fst q ++ [[]; snd q].

(** The base question [main] makes of it. *)
Definition question_text (q : list str * str) : str :=
  Py.join [nl] (fst q) ++
  (if bool_decide (Py.strip (snd q) = []) then []
   else [nl; nl] ++ lit "![](" ++ Py.strip (snd q) ++ lit ")").

(** A line that the inner loop appends whatever came before it. *)
Definition content_line (line : str) : Prop :=
  Py.strip line <> [] /\ is_done line = false.

(** Whether one line is added without raising. *)
Definition line_result (w : World) (line : str) : result unit :=
  snd (add_line w line []).

(** Every line of every output is added without raising. *)
Definition lines_added (w : World) (outputs : list str) : Prop :=
  Forall (fun out => Forall (fun line => line_result w line = Ok ()) (Py.splitlines out))
    outputs.

(** The fixed text of the prompt: above the base question, between it and
    the template, and below the template. *)
Definition prompt_above : str :=
  [nl] ++
  ln "You are an expert educational content creator." ++
  ln "Generate ONE new question that is exactly the same type as the Base Question." ++
  lit "Do not change the mathematical concept " ++ [8212] ++
  ln " only change surface details like names, objects, and numbers." ++
  ln "Keep LaTeX math notation unchanged." ++
  ln "Preserve any image references in ![](url) format." ++
  ln "" ++
  ln "Base Question:".

Definition prompt_between : str :=
  [nl] ++ ln "" ++
  ln "Follow this exact output format (tags must be on separate lines):".

Definition prompt_below : str :=
  [nl] ++
  ln "" ++
  ln "Ensure:" ++
  ln "- Same math skill tested." ++
  ln "- Correct answer logic matches the base question's method." ++
  ln "- Subject, unit, and topic tags match EXACTLY from the curriculum list." ++
  ln "- @subject, @unit, @topic are each on their own line.".

(** The section of an output whose lines are all text. *)
Definition text_section (numbered : Z * str) : list Docx.block :=
  Docx.Paragraph (lit "--- Question " ++ Py.str_of_int (fst numbered) ++ lit " ---")
  :: map Docx.Paragraph (Py.splitlines (snd numbered)).

(** The width of a block that is a picture. *)
Definition picture_width (b : Docx.block) : option Z :=
  match b with
  | Docx.Picture _ width => Some width
  | _ => None
  end.

(** *** Further sample surroundings *)

(** A machine on which the generator answers, every image is fetched or
    found, and every image loads. *)
Definition online : World := {|
  home := [lit "home"; lit "user"];
  timestamp := lit "20240101_120000";
  which := fun _ => Some (lit "/usr/bin/ollama");
  subprocess_run := fun _ _ =>
    Ok {| returncode := 0; stdout := lit "@title Sums" ++ [nl] ++ lit "@question 3+3?" ++ [nl];
          stderr := [] |};
  requests_get := fun u =>
    Ok {| status_code := 200; reason := lit "OK"; url := u; content := [137; 80; 78; 71] |};
  path_exists := fun _ => Ok true;
  load_image := fun _ => Ok ()
|}.

(** The same machine without [ollama] on the search path. *)
Definition no_ollama : World := {|
  home := home online;
  timestamp := timestamp online;
  which := fun _ => None;
  subprocess_run := subprocess_run online;
  requests_get := requests_get online;
  path_exists := path_exists online;
  load_image := load_image online
|}.

(** The same machine with an [ollama] that cannot be started. *)
Definition broken_generator : World := {|
  home := home online;
  timestamp := timestamp online;
  which := which online;
  subprocess_run := fun _ _ =>
    Raise (Exn (lit "PermissionError") (lit "Permission denied: 'ollama'"));
  requests_get := requests_get online;
  path_exists := path_exists online;
  load_image := load_image online
|}.

(** The state of a run that starts on the bare disk. *)
Definition fresh_state : app_state := {| fs := bare_disk; OUTPUT_DOCX := [] |}.

(** * Properties *)

(** ** Strings *)

Lemma startswith_spec (s p : str) :
  Py.startswith s p = true <-> exists post, s = p ++ post.
Proof.
  revert s. induction p as [|c p IH]; intros s; simpl.
  - split; [intros _; by exists s | done].
  - destruct s as [|d s]; simpl.
    + split; [done | intros [post H]; discriminate].
    + rewrite andb_true_iff, Z.eqb_eq, IH. split.
      * intros [-> [post ->]]. by exists post.
      * intros [post H]. injection H as -> ->. eauto.
Qed.

Lemma contains_spec (s p : str) :
  Py.contains s p = true <-> substring p s.
Proof.
  unfold substring. induction s as [|d s IH]; simpl.
  - rewrite orb_false_r, startswith_spec. split.
    + intros [post H]. by exists [], post.
    + intros [pre [post H]]. destruct pre; [by exists post | discriminate].
  - rewrite orb_true_iff, startswith_spec, IH. split.
    + intros [[post H] | [pre [post H]]].
      * by exists [], post.
      * exists (d :: pre), post. by rewrite H.
    + intros [[|d' pre] [post H]].
      * left. by exists post.
      * right. injection H as -> ->. eauto.
Qed.

Lemma substring_app_l (p a b : str) : substring p a -> substring p (a ++ b).
Proof.
  intros [pre [post ->]]. exists pre, (post ++ b). by rewrite <- !app_assoc.
Qed.

Lemma substring_app_r (p a b : str) : substring p b -> substring p (a ++ b).
Proof.
  intros [pre [post ->]]. exists (a ++ pre), post. by rewrite <- !app_assoc.
Qed.

Lemma substring_refl (p : str) : substring p p.
Proof. exists [], []. by rewrite app_nil_r. Qed.

(** ** Option detection *)

Lemma option_letter_spec (x : Z) :
  Re.option_letter x = true <-> x ∈ option_letters.
Proof.
  unfold Re.option_letter, in_range, option_letters.
  rewrite orb_true_iff, !andb_true_iff, !Z.leb_le.
  rewrite !elem_of_cons, elem_of_nil. lia.
Qed.

Lemma findall_option_step (c l r : Z) (rest : str) :
  Re.findall_option (c :: l :: r :: rest) =
  if (c =? 40) && Re.option_letter l && (r =? 41)
  then [c; l; r] :: Re.findall_option rest
  else Re.findall_option (l :: r :: rest).
Proof. reflexivity. Qed.

Lemma findall_option_short (s : str) :
  (length s < 3)%nat -> Re.findall_option s = [].
Proof.
  destruct s as [|c [|l [|r rest]]]; simpl; try done. lia.
Qed.

Lemma findall_option_sound (s m : str) :
  m ∈ Re.findall_option s ->
  exists x, Re.option_letter x = true /\ m = marker x /\ substring m s.
Proof.
  induction s as [s IH] using (induction_ltof1 _ (@length Z)). unfold ltof in IH.
  destruct s as [|c [|l [|r rest]]];
    try (rewrite findall_option_short by (simpl; lia); intros H; by apply elem_of_nil in H).
  rewrite findall_option_step.
  destruct ((c =? 40) && Re.option_letter l && (r =? 41)) eqn:E.
  - apply andb_true_iff in E as [E Er]. apply andb_true_iff in E as [Ec El].
    apply Z.eqb_eq in Ec, Er. subst c r.
    intros [-> | H]%elem_of_cons.
    + exists l. split; [done|]. split; [done|]. by exists [], rest.
    + apply IH in H as (x & ? & ? & Hs); [|simpl; lia].
      exists x. split; [done|]. split; [done|].
      by apply (substring_app_r _ [40; l; 41]).
  - intros H. apply IH in H as (x & ? & ? & Hs); [|simpl; lia].
    exists x. split; [done|]. split; [done|].
    by apply (substring_app_r _ [c]).
Qed.

Lemma findall_option_complete (s : str) (x : Z) :
  Re.option_letter x = true -> substring (marker x) s ->
  marker x ∈ Re.findall_option s.
Proof.
  intros Hx. assert (Hx40 : x <> 40) by (apply option_letter_spec in Hx;
    unfold option_letters in Hx; rewrite !elem_of_cons, elem_of_nil in Hx; lia).
  induction s as [s IH] using (induction_ltof1 _ (@length Z)). unfold ltof in IH.
  intros [pre [post H]]. destruct pre as [|c pre].
  - subst s. simpl. rewrite Hx. simpl. apply elem_of_cons. by left.
  - destruct s as [|c' s]; [discriminate|]. injection H as -> Hs.
    assert (Hin : marker x ∈ Re.findall_option s).
    { apply IH; [simpl; lia|]. by exists pre, post. }
    destruct s as [|l [|r rest]]; try done.
    rewrite findall_option_step.
    destruct ((c =? 40) && Re.option_letter l && (r =? 41)) eqn:E; [|done].
    apply andb_true_iff in E as [E Er]. apply andb_true_iff in E as [Ec El].
    apply Z.eqb_eq in Ec, Er. subst c r.
    apply elem_of_cons. right.
    assert (Hl40 : l <> 40) by (apply option_letter_spec in El;
      unfold option_letters in El; rewrite !elem_of_cons, elem_of_nil in El; lia).
    destruct pre as [|p1 [|p2 pre]]; simpl in Hs.
    + injection Hs as ? ?. congruence.
    + injection Hs as ? ? ?. lia.
    + injection Hs as ? ? Hs. subst. apply IH; [simpl; lia|]. by exists pre, post.
Qed.

Lemma markers_NoDup : NoDup markers.
Proof. apply (bool_decide_unpack _). by vm_compute. Qed.

Lemma elem_of_filter_bool {A} (f : A -> bool) (l : list A) (x : A) :
  x ∈ List.filter f l <-> x ∈ l /\ f x = true.
Proof.
  rewrite !list_elem_of_In, filter_In. tauto.
Qed.

Lemma NoDup_filter_bool {A} (f : A -> bool) (l : list A) :
  NoDup l -> NoDup (List.filter f l).
Proof.
  rewrite !NoDup_ListNoDup. apply List.NoDup_filter.
Qed.

(** The matches of the scan are the markers that occur in the text. *)
Lemma findall_option_markers (s m : str) :
  m ∈ Re.findall_option s <-> m ∈ List.filter (fun m => Py.contains s m) markers.
Proof.
  rewrite elem_of_filter_bool, contains_spec. unfold markers. split.
  - intros (x & Hx & -> & Hs)%findall_option_sound. split; [|done].
    apply list_elem_of_fmap. exists x. split; [done|]. by apply option_letter_spec.
  - intros [Hm Hs]. apply list_elem_of_fmap in Hm as (x & -> & Hx).
    apply findall_option_complete; [by apply option_letter_spec | done].
Qed.

Lemma detect_options_distinct (s : str) :
  detect_options s = distinct_markers s.
Proof.
  unfold detect_options, distinct_markers. f_equal.
  rewrite <- (size_list_to_set (C := gset str) (List.filter _ markers)).
  - f_equal. apply set_eq. intros m.
    rewrite !elem_of_list_to_set. apply findall_option_markers.
  - apply NoDup_filter_bool, markers_NoDup.
Qed.

Lemma detect_options_bounds (s : str) : 0 <= detect_options s <= 10.
Proof.
  rewrite detect_options_distinct. unfold distinct_markers.
  pose proof (List.filter_length_le (fun m => Py.contains s m) markers) as H.
  change (length markers) with 10%nat in H. lia.
Qed.

(** ** Lines *)

Lemma split_nl_nonempty (s : str) : Py.split_nl s <> [].
Proof.
  destruct s as [|c s]; simpl; [done|].
  destruct (c =? nl); [done|]. by destruct (Py.split_nl s).
Qed.

Lemma split_nl_app (a b : str) :
  Py.split_nl (a ++ nl :: b) = Py.split_nl a ++ Py.split_nl b.
Proof.
  induction a as [|c a IH]; simpl.
  - done.
  - destruct (c =? nl); [by rewrite IH|].
    rewrite IH. pose proof (split_nl_nonempty a). by destruct (Py.split_nl a).
Qed.

Lemma split_nl_line (a : str) : nl ∉ a -> Py.split_nl a = [a].
Proof.
  induction a as [|c a IH]; simpl; [done|].
  intros H. apply not_elem_of_cons in H as [Hc Ha].
  destruct (Z.eqb_spec c nl); [congruence|]. by rewrite IH.
Qed.

Lemma split_nl_join (ls : list str) :
  ls <> [] -> Forall (fun l => nl ∉ l) ls -> Py.split_nl (Py.join [nl] ls) = ls.
Proof.
  induction ls as [|l ls IH]; [done|]. intros _ H.
  apply Forall_cons in H as [Hl Hls]. destruct ls as [|l' ls].
  - by apply split_nl_line.
  - change (Py.join [nl] (l :: l' :: ls)) with (l ++ nl :: Py.join [nl] (l' :: ls)).
    rewrite split_nl_app, split_nl_line, IH; done.
Qed.

Lemma join_app (ls1 ls2 : list str) :
  ls1 <> [] -> ls2 <> [] ->
  Py.join [nl] (ls1 ++ ls2) = Py.join [nl] ls1 ++ nl :: Py.join [nl] ls2.
Proof.
  induction ls1 as [|l ls1 IH]; [done|]. intros _ H2. destruct ls1 as [|l' ls1].
  - destruct ls2; done.
  - change (Py.join [nl] ((l :: l' :: ls1) ++ ls2))
      with (l ++ nl :: Py.join [nl] ((l' :: ls1) ++ ls2)).
    rewrite IH by done.
    change (Py.join [nl] (l :: l' :: ls1)) with (l ++ nl :: Py.join [nl] (l' :: ls1)).
    by rewrite <- app_assoc.
Qed.

Lemma join_cons_prefix (p l : str) (ls : list str) :
  p ++ Py.join [nl] (l :: ls) = Py.join [nl] ((p ++ l) :: ls).
Proof.
  destruct ls; simpl; [done|]. by rewrite <- app_assoc.
Qed.

(** ** Dedenting *)

Lemma common_prefix_nil_r (a : str) : Textwrap.common_prefix a [] = [].
Proof. by destruct a. Qed.

Lemma margin_fold_nil (indents : list str) :
  fold_left
    (fun m indent =>
       match m with
       | None => Some indent
       | Some m' => Some (Textwrap.common_prefix m' indent)
       end) indents (Some []) = Some [].
Proof. induction indents as [|i indents IH]; simpl; done. Qed.

Lemma margin_fold_has_nil (indents : list str) (acc : option str) :
  [] ∈ indents ->
  fold_left
    (fun m indent =>
       match m with
       | None => Some indent
       | Some m' => Some (Textwrap.common_prefix m' indent)
       end) indents acc = Some [].
Proof.
  revert acc. induction indents as [|i indents IH]; intros acc H.
  - by apply elem_of_nil in H.
  - apply elem_of_cons in H as [<- | H]; simpl.
    + destruct acc; [rewrite common_prefix_nil_r|]; apply margin_fold_nil.
    + by apply IH.
Qed.

(** A line that starts at the first column leaves no margin to remove. *)
Lemma margin_unindented (lines : list str) (l : str) :
  l ∈ lines -> Textwrap.whitespace_only l = false ->
  Textwrap.leading_whitespace l = [] ->
  Textwrap.margin lines = Some [].
Proof.
  intros Hin Hws Hlead. unfold Textwrap.margin. apply margin_fold_has_nil.
  rewrite <- Hlead. apply list_elem_of_fmap. exists l. split; [done|].
  apply elem_of_filter_bool. by rewrite Hws.
Qed.

Lemma dedent_unindented (text : str) (l : str) :
  l ∈ Py.split_nl text -> Textwrap.whitespace_only l = false ->
  Textwrap.leading_whitespace l = [] ->
  Textwrap.dedent text =
  Py.join [nl]
    (map (fun l => if Textwrap.whitespace_only l then [] else l) (Py.split_nl text)).
Proof.
  intros Hin Hws Hlead. unfold Textwrap.dedent.
  rewrite (margin_unindented _ l); [done| |done|done].
  apply list_elem_of_fmap. exists l. by rewrite Hws.
Qed.

(** ** The template *)

Lemma format_above_lines : format_above = Py.join [nl] format_head ++ [nl].
Proof. reflexivity. Qed.

Lemma format_below_lines : map emptied (Py.split_nl format_below) = format_tail.
Proof. by vm_compute. Qed.

Lemma format_head_split :
  map emptied (Py.split_nl (Py.join [nl] format_head)) = format_head.
Proof. by vm_compute. Qed.

Lemma emptied_tags (ts : list str) :
  Forall (fun t => (nl ∉ t) /\ Textwrap.whitespace_only t = false) ts ->
  map emptied ts = ts.
Proof.
  induction 1 as [|t ts [_ Ht] _ IH]; simpl; [done|].
  unfold emptied at 1. by rewrite Ht, IH.
Qed.

Lemma option_block_split (tags : list str) :
  Forall (fun t => (nl ∉ t) /\ Textwrap.whitespace_only t = false) tags ->
  map emptied (Py.split_nl (lit "    " ++ Py.join [nl] tags)) = option_block_lines tags.
Proof.
  intros H. destruct tags as [|t ts]; [done|].
  pose proof H as H'. apply Forall_cons in H' as [[Hnl Ht] Hts].
  rewrite join_cons_prefix, split_nl_join; [|done|].
  - change (map emptied ((lit "    " ++ t) :: ts))
      with (emptied (lit "    " ++ t) :: map emptied ts).
    rewrite (emptied_tags ts) by done. unfold option_block_lines. f_equal.
    unfold emptied. change (lit "    " ++ t) with (32 :: 32 :: 32 :: 32 :: t).
    simpl. by rewrite Ht.
  - apply Forall_cons. split.
    + change (lit "    " ++ t) with (32 :: 32 :: 32 :: 32 :: t).
      rewrite !not_elem_of_cons. unfold nl. repeat split; done.
    + eapply Forall_impl; [exact Hts|]. by intros ? [? _].
Qed.

(** The template for the tags [tags], line by line. *)
Lemma dedent_question_format (tags : list str) :
  Forall (fun t => (nl ∉ t) /\ Textwrap.whitespace_only t = false) tags ->
  Textwrap.dedent (question_format_text (Py.join [nl] tags)) =
  Py.join [nl] (format_head ++ option_block_lines tags ++ format_tail).
Proof.
  intros H.
  assert (Hlines :
    map emptied (Py.split_nl (question_format_text (Py.join [nl] tags))) =
    format_head ++ option_block_lines tags ++ format_tail).
  { unfold question_format_text. rewrite format_above_lines.
    rewrite <- (app_assoc _ [nl]).
    change ([nl] ++ lit "    " ++ Py.join [nl] tags ++ [nl] ++ format_below)
      with (nl :: (lit "    " ++ Py.join [nl] tags) ++ nl :: format_below).
    rewrite !split_nl_app, !map_app.
    by rewrite format_head_split, option_block_split, format_below_lines. }
  rewrite (dedent_unindented _ (lit "- Quantitative Math > Problem Solving > Algebra")).
  - f_equal. exact Hlines.
  - unfold question_format_text. rewrite format_above_lines.
    rewrite <- (app_assoc _ [nl]).
    change ([nl] ++ lit "    " ++ Py.join [nl] tags ++ [nl] ++ format_below)
      with (nl :: (lit "    " ++ Py.join [nl] tags) ++ nl :: format_below).
    rewrite !split_nl_app, !elem_of_app. right. right.
    apply (bool_decide_unpack _). by vm_compute.
  - by vm_compute.
  - by vm_compute.
Qed.

(** ** The option tags *)

Lemma elem_of_range (n i : Z) : i ∈ Py.range n <-> 0 <= i < n.
Proof.
  unfold Py.range. rewrite list_elem_of_fmap. split.
  - intros (k & -> & Hk). apply list_elem_of_In, in_seq in Hk. lia.
  - intros H. exists (Z.to_nat i). split; [lia|].
    apply list_elem_of_In, in_seq. lia.
Qed.

Lemma range_split (n k : Z) :
  0 <= k < n -> exists rest, Py.range n = Py.range k ++ k :: rest.
Proof.
  intros H. unfold Py.range.
  replace (Z.to_nat n) with (Z.to_nat k + S (Z.to_nat (n - k - 1)))%nat by lia.
  rewrite seq_app, map_app. rewrite <- cons_seq. rewrite map_cons.
  rewrite Nat.add_0_l, Z2Nat.id by lia. eauto.
Qed.

Lemma range_last (n : Z) : 0 < n -> Py.range n = Py.range (n - 1) ++ [n - 1].
Proof.
  intros H. unfold Py.range.
  replace (Z.to_nat n) with (Z.to_nat (n - 1) + 1)%nat by lia.
  rewrite seq_app, map_app. simpl. by rewrite Z2Nat.id by lia.
Qed.

Lemma option_tag_lettered (n i : Z) :
  0 <= i <= 1114046 -> i <> n - 1 -> option_tag n i = Ok (lettered_tag i).
Proof.
  intros Hi Hn. unfold option_tag, Py.chr, in_range.
  destruct (Z.eqb_spec i (n - 1)); [done|].
  destruct (Z.leb_spec 0 (65 + i)); [|lia].
  destruct (Z.leb_spec (65 + i) 1114111); [|lia]. done.
Qed.

Lemma option_tag_correct (n : Z) : option_tag n (n - 1) = Ok correct_tag.
Proof. unfold option_tag. by rewrite Z.eqb_refl. Qed.

Lemma option_tag_raises (n i : Z) :
  1114047 <= i -> i <> n - 1 ->
  option_tag n i =
  Raise (Exn (lit "ValueError") (lit "chr() arg not in range(0x110000)")).
Proof.
  intros Hi Hn. unfold option_tag, Py.chr, in_range.
  destruct (Z.eqb_spec i (n - 1)); [done|].
  destruct (Z.leb_spec (65 + i) 1114111); [lia|]. by rewrite andb_false_r.
Qed.

Lemma option_tags_loop_ok (n : Z) (f : Z -> str) (indices : list Z) (acc : list str) :
  (forall i, i ∈ indices -> option_tag n i = Ok (f i)) ->
  option_tags_loop n indices acc = Ok (acc ++ map f indices).
Proof.
  revert acc. induction indices as [|i indices IH]; intros acc H; simpl.
  - by rewrite app_nil_r.
  - rewrite (H i) by apply list_elem_of_here. simpl.
    rewrite IH by (intros; apply H; by apply list_elem_of_further).
    by rewrite <- app_assoc.
Qed.

Lemma option_tags_loop_raises (n : Z) (f : Z -> str) (before after : list Z)
    (i : Z) (e : exn) (acc : list str) :
  (forall j, j ∈ before -> option_tag n j = Ok (f j)) ->
  option_tag n i = Raise e ->
  option_tags_loop n (before ++ i :: after) acc = Raise e.
Proof.
  revert acc. induction before as [|j before IH]; intros acc H Hi; simpl.
  - by rewrite Hi.
  - rewrite (H j) by apply list_elem_of_here. simpl.
    apply IH; [|done]. intros; apply H; by apply list_elem_of_further.
Qed.

Lemma tag_shaped_line (t : str) :
  tag_shaped t -> (nl ∉ t) /\ Textwrap.whitespace_only t = false.
Proof.
  intros [-> | (i & Hi & ->)].
  - split; [|done]. apply (bool_decide_unpack _). by vm_compute.
  - split; [|done]. unfold lettered_tag, nl.
    change (lit "@option <Option " ++ [65 + i] ++ lit ">")
      with (lit "@option <Option " ++ (65 + i) :: lit ">").
    rewrite elem_of_app, elem_of_cons. intros [H | [H | H]]; [|lia|].
    + revert H. apply (bool_decide_unpack _). by vm_compute.
    + revert H. apply (bool_decide_unpack _). by vm_compute.
Qed.

Lemma option_tags_shaped (n : Z) : Forall tag_shaped (option_tags n).
Proof.
  unfold option_tags. apply Forall_fmap, Forall_forall. intros i Hi.
  apply elem_of_range in Hi. simpl. destruct (i =? n - 1).
  - by left.
  - right. exists i. split; [lia | done].
Qed.

Lemma option_tags_last (n : Z) :
  1 <= n -> option_tags n = map lettered_tag (Py.range (n - 1)) ++ [correct_tag].
Proof.
  intros H. unfold option_tags. rewrite (range_last n) by lia.
  rewrite map_app. simpl. rewrite Z.eqb_refl. f_equal.
  apply map_ext_in. intros i Hi%list_elem_of_In%elem_of_range.
  destruct (Z.eqb_spec i (n - 1)); [lia | done].
Qed.

Lemma option_tags_none (n : Z) : n <= 0 -> option_tags n = [].
Proof.
  intros H. unfold option_tags, Py.range.
  by replace (Z.to_nat n) with 0%nat by lia.
Qed.

(** Up to the last code point [chr] accepts, the template is built, and
    with the lines below. *)
Lemma build_question_format_ok (n : Z) :
  n <= 1114048 ->
  build_question_format n =
  Ok (Py.join [nl] (format_head ++ option_block_lines (option_tags n) ++ format_tail)).
Proof.
  intros H. unfold build_question_format.
  rewrite (option_tags_loop_ok n
    (fun i => if i =? n - 1 then correct_tag else lettered_tag i)).
  - simpl. f_equal. apply dedent_question_format.
    eapply Forall_impl; [apply option_tags_shaped | apply tag_shaped_line].
  - intros i Hi%elem_of_range. destruct (Z.eqb_spec i (n - 1)) as [-> | Hne].
    + apply option_tag_correct.
    + apply option_tag_lettered; lia.
Qed.

(** Beyond it, [chr] raises and no template is returned. *)
Lemma build_question_format_raises (n : Z) :
  1114049 <= n ->
  build_question_format n =
  Raise (Exn (lit "ValueError") (lit "chr() arg not in range(0x110000)")).
Proof.
  intros H. unfold build_question_format.
  destruct (range_split n 1114047) as [rest ->]; [lia|].
  rewrite (option_tags_loop_raises n lettered_tag) with
    (e := Exn (lit "ValueError") (lit "chr() arg not in range(0x110000)")); [done| |].
  - intros j Hj%elem_of_range. apply option_tag_lettered; lia.
  - apply option_tag_raises; lia.
Qed.

(** ** The option lines of a template *)

Lemma tag_shaped_lstrip (t : str) : tag_shaped t -> Py.lstrip t = t.
Proof. by intros [-> | (i & _ & ->)]. Qed.

Lemma tag_shaped_option (t : str) :
  tag_shaped t -> Py.contains t (lit "@option") = true.
Proof. by intros [-> | (i & _ & ->)]. Qed.

Lemma option_block_lstrip (tags : list str) :
  tags <> [] -> Forall tag_shaped tags ->
  map Py.lstrip (option_block_lines tags) = tags.
Proof.
  destruct tags as [|t ts]; [done|]. intros _ [Ht Hts]%Forall_cons. simpl.
  f_equal.
  - change (lit "    " ++ t) with (32 :: 32 :: 32 :: 32 :: t). simpl.
    by apply tag_shaped_lstrip.
  - induction Hts as [|t' ts Ht' _ IH]; simpl; [done|].
    by rewrite tag_shaped_lstrip, IH.
Qed.

Lemma template_lines_join (ls : list str) :
  ls <> [] -> Forall (fun l => nl ∉ l) ls ->
  template_lines (Py.join [nl] ls) = map Py.lstrip ls.
Proof. intros ??. unfold template_lines. by rewrite split_nl_join. Qed.

Lemma option_block_no_nl (tags : list str) :
  Forall tag_shaped tags -> Forall (fun l => nl ∉ l) (option_block_lines tags).
Proof.
  intros H. destruct tags as [|t ts]; simpl.
  - apply Forall_singleton. apply not_elem_of_nil.
  - apply Forall_cons in H as [Ht Hts]. apply Forall_cons. split.
    + change (lit "    " ++ t) with (32 :: 32 :: 32 :: 32 :: t).
      rewrite !not_elem_of_cons. unfold nl. repeat split; try done.
      by apply tag_shaped_line.
    + eapply Forall_impl; [exact Hts|]. intros ? ?. by apply tag_shaped_line.
Qed.

Lemma format_lines_no_nl (tags : list str) :
  Forall tag_shaped tags ->
  Forall (fun l => nl ∉ l) (format_head ++ option_block_lines tags ++ format_tail).
Proof.
  intros H. rewrite !Forall_app. split; [|split].
  - apply (bool_decide_unpack _). by vm_compute.
  - by apply option_block_no_nl.
  - apply (bool_decide_unpack _). by vm_compute.
Qed.

(** The lines of a template built from tags, without their indentation. *)
Lemma template_lines_format (tags : list str) :
  Forall tag_shaped tags ->
  template_lines
    (Py.join [nl] (format_head ++ option_block_lines tags ++ format_tail)) =
  map Py.lstrip format_head ++ map Py.lstrip (option_block_lines tags) ++
  map Py.lstrip format_tail.
Proof.
  intros H. rewrite template_lines_join.
  - by rewrite !map_app.
  - done.
  - by apply format_lines_no_nl.
Qed.

Lemma filter_cons_bool {A} (f : A -> bool) (x : A) (l : list A) :
  List.filter f (x :: l) = if f x then x :: List.filter f l else List.filter f l.
Proof. reflexivity. Qed.

Lemma filter_tags_option (tags : list str) :
  Forall tag_shaped tags ->
  List.filter (fun l => Py.contains l (lit "@option")) tags = tags.
Proof.
  induction 1 as [|t ts Ht _ IH]; [done|].
  by rewrite filter_cons_bool, tag_shaped_option, IH.
Qed.

Lemma filter_lettered (indices : list Z) :
  List.filter (fun l => Py.startswith l (lit "@option"))
    (map lettered_tag indices ++ [correct_tag]) = map lettered_tag indices.
Proof.
  induction indices as [|i indices IH]; [done|].
  rewrite map_cons, <- app_comm_cons, filter_cons_bool.
  change (Py.startswith (lettered_tag i) (lit "@option")) with true.
  by rewrite IH.
Qed.

Lemma filter_correct (indices : list Z) :
  List.filter (fun l => Py.startswith l (lit "@@option"))
    (map lettered_tag indices ++ [correct_tag]) = [correct_tag].
Proof.
  induction indices as [|i indices IH]; [done|].
  rewrite map_cons, <- app_comm_cons, filter_cons_bool.
  change (Py.startswith (lettered_tag i) (lit "@@option")) with false.
  by rewrite IH.
Qed.

Lemma length_range (n : Z) : 0 <= n -> Z.of_nat (length (Py.range n)) = n.
Proof.
  intros H. unfold Py.range. rewrite length_map, length_seq. lia.
Qed.

(** The option lines of the template for [n >= 1] options. *)
Lemma option_lines_format (n : Z) :
  1 <= n ->
  let t := Py.join [nl] (format_head ++ option_block_lines (option_tags n) ++ format_tail) in
  option_lines t = map lettered_tag (Py.range (n - 1)) ++ [correct_tag] /\
  count_lettered t = n - 1 /\
  count_correct t = 1.
Proof.
  intros H t. subst t. unfold option_lines, count_lettered, count_correct.
  rewrite template_lines_format by apply option_tags_shaped.
  rewrite option_block_lstrip; [|rewrite option_tags_last by done; by destruct (map _ _)
                               |apply option_tags_shaped].
  rewrite !List.filter_app.
  replace (List.filter (fun l => Py.contains l (lit "@option")) (map Py.lstrip format_head))
    with (@nil str) by (by vm_compute).
  replace (List.filter (fun l => Py.contains l (lit "@option")) (map Py.lstrip format_tail))
    with (@nil str) by (by vm_compute).
  replace (List.filter (fun l => Py.startswith l (lit "@option")) (map Py.lstrip format_head))
    with (@nil str) by (by vm_compute).
  replace (List.filter (fun l => Py.startswith l (lit "@option")) (map Py.lstrip format_tail))
    with (@nil str) by (by vm_compute).
  replace (List.filter (fun l => Py.startswith l (lit "@@option")) (map Py.lstrip format_head))
    with (@nil str) by (by vm_compute).
  replace (List.filter (fun l => Py.startswith l (lit "@@option")) (map Py.lstrip format_tail))
    with (@nil str) by (by vm_compute).
  rewrite filter_tags_option by apply option_tags_shaped.
  rewrite option_tags_last by done.
  rewrite filter_lettered, filter_correct, !app_nil_r. simpl.
  split; [done|]. split; [|done].
  rewrite length_map, length_range; lia.
Qed.

(** ** The prompt *)

Lemma substring_trans (a b c : str) : substring a b -> substring b c -> substring a c.
Proof.
  intros [p1 [q1 ->]] [p2 [q2 ->]]. exists (p2 ++ p1), (q1 ++ q2).
  by rewrite <- !app_assoc.
Qed.

Lemma substring_join (sep l : str) (ls : list str) :
  l ∈ ls -> substring l (Py.join sep ls).
Proof.
  induction ls as [|l' ls IH]; intros H; [by apply elem_of_nil in H|].
  apply elem_of_cons in H as [-> | H].
  - destruct ls; [apply substring_refl|]. apply substring_app_l, substring_refl.
  - destruct ls as [|l'' ls]; [by apply elem_of_nil in H|].
    change (Py.join sep (l' :: l'' :: ls)) with (l' ++ sep ++ Py.join sep (l'' :: ls)).
    by apply substring_app_r, substring_app_r, IH.
Qed.

Lemma curriculum_in_tail :
  Forall (fun entry => exists l, l ∈ format_tail /\ substring (curriculum_line entry) l)
    CURRICULUM.
Proof.
  assert (H : forallb (fun entry =>
                existsb (fun l => Py.contains l (curriculum_line entry)) format_tail)
              CURRICULUM = true) by (by vm_compute).
  apply Forall_forall. intros entry Hin%list_elem_of_In.
  rewrite forallb_forall in H. apply H, existsb_exists in Hin as (l & Hl & Hc).
  exists l. split; [by apply list_elem_of_In | by apply contains_spec].
Qed.

(** Every curriculum entry is in every template. *)
Lemma curriculum_in_template (tags : list str) :
  Forall (fun entry =>
            substring (curriculum_line entry)
              (Py.join [nl] (format_head ++ option_block_lines tags ++ format_tail)))
    CURRICULUM.
Proof.
  eapply Forall_impl; [apply curriculum_in_tail|]. intros entry (l & Hl & Hs).
  eapply substring_trans; [exact Hs|]. apply substring_join.
  rewrite !elem_of_app. by right; right.
Qed.

(** The prompt is built for every base question, around the question and
    the template for its option count. *)
Lemma build_prompt_ok (base_question : str) (order_num : Z) :
  exists above between below,
    build_prompt base_question order_num =
    Ok (above ++ base_question ++ between ++
        Py.join [nl] (format_head ++
                      option_block_lines (option_tags (detect_options base_question)) ++
                      format_tail) ++ below).
Proof.
  unfold build_prompt.
  rewrite build_question_format_ok by (pose proof (detect_options_bounds base_question); lia).
  exists ([nl] ++
          ln "You are an expert educational content creator." ++
          ln "Generate ONE new question that is exactly the same type as the Base Question." ++
          lit "Do not change the mathematical concept " ++ [8212] ++
          ln " only change surface details like names, objects, and numbers." ++
          ln "Keep LaTeX math notation unchanged." ++
          ln "Preserve any image references in ![](url) format." ++
          ln "" ++
          ln "Base Question:").
  exists ([nl] ++ ln "" ++
          ln "Follow this exact output format (tags must be on separate lines):").
  exists ([nl] ++
          ln "" ++
          ln "Ensure:" ++
          ln "- Same math skill tested." ++
          ln "- Correct answer logic matches the base question's method." ++
          ln "- Subject, unit, and topic tags match EXACTLY from the curriculum list." ++
          ln "- @subject, @unit, @topic are each on their own line.").
  reflexivity.
Qed.

(** ** Decoding with replacement *)

Lemma emit_ok (c : Z) (rest : result str) :
  (exists s, rest = Ok s) -> exists s, Utf8.emit c rest = Ok s.
Proof. intros [s ->]. by exists (c :: s). Qed.

(** With [errors="replace"] decoding returns a string for every input. *)
Lemma decode_replace_total (bs : bytes) :
  exists s, Utf8.decode Utf8.Replace bs = Ok s.
Proof.
  induction bs as [bs IH] using (induction_ltof1 _ (@length Z)). unfold ltof in IH.
  destruct bs as [|b0 r0]; [by exists []|].
  cbn [Utf8.decode]. unfold Utf8.ill.
  repeat match goal with
         | |- context [if ?c then _ else _] => destruct c
         | |- context [match ?l with [] => _ | _ :: _ => _ end] =>
             is_var l; destruct l; cbv iota
         end;
    apply emit_ok, IH; simpl; lia.
Qed.

Lemma decode_empty (mode : Utf8.errors) : Utf8.decode mode [] = Ok [].
Proof. reflexivity. Qed.

(** ** The generation call *)

Section Generation.

Context (w : World).

Lemma call_llm_placeholder (prompt : str) :
  call_llm w prompt false =
  Ok (lit "@title Placeholder" ++ [nl] ++
      lit "@description This is a placeholder question" ++ [nl] ++ lit "...").
Proof. reflexivity. Qed.

(** An error starting the process reaches the caller as it is. *)
Lemma call_llm_not_started (prompt : str) (input : bytes) (e : exn) :
  Utf8.encode prompt = Ok input ->
  subprocess_run w [lit "ollama"; lit "run"; LOCAL_MODEL] input = Raise e ->
  call_llm w prompt true = Raise e.
Proof. intros Henc Hrun. unfold call_llm. rewrite Henc. simpl. by rewrite Hrun. Qed.

(** Once the process has run, its output is returned, whatever its exit
    status and whatever its bytes. *)
Lemma call_llm_completed (prompt : str) (input : bytes) (process : CompletedProcess) :
  Utf8.encode prompt = Ok input ->
  subprocess_run w [lit "ollama"; lit "run"; LOCAL_MODEL] input = Ok process ->
  exists text,
    Utf8.decode Utf8.Replace (stdout process) = Ok text /\
    call_llm w prompt true = Ok (Py.strip text).
Proof.
  intros Henc Hrun. destruct (decode_replace_total (stdout process)) as [text Ht].
  exists text. split; [done|].
  unfold call_llm. rewrite Henc. simpl. rewrite Hrun. simpl. by rewrite Ht.
Qed.

End Generation.

(** ** Document assembly *)

Lemma docx_bind_unfold {A B} (m : Docx.docx A) (f : A -> Docx.docx B)
    (d : Docx.Document) :
  (m ≫= f) d =
  match m d with
  | (d', Ok a) => f a d'
  | (d', Raise e) => (d', Raise e)
  end.
Proof. reflexivity. Qed.

Lemma xml_char_not_surrogate (c : Z) :
  Docx.xml_char c = true -> in_range 55296 57343 c = false.
Proof.
  unfold Docx.xml_char, in_range.
  rewrite !orb_true_iff, !andb_true_iff, !Z.eqb_eq, !Z.leb_le. intros H.
  apply andb_false_iff. rewrite !Z.leb_gt. lia.
Qed.

Lemma set_text_compatible (segment : str) :
  Docx.xml_compatible segment = true -> Docx.set_text segment = Ok ().
Proof.
  intros H. unfold Docx.set_text. rewrite H.
  assert (Hs : existsb (in_range 55296 57343) segment = false).
  { apply not_true_is_false. intros (c & Hc & Hr)%existsb_exists.
    unfold Docx.xml_compatible in H. rewrite forallb_forall in H.
    by rewrite (xml_char_not_surrogate c (H c Hc)) in Hr. }
  by rewrite Hs.
Qed.

Lemma xml_compatible_app (a b : str) :
  Docx.xml_compatible (a ++ b) = Docx.xml_compatible a && Docx.xml_compatible b.
Proof. apply forallb_app. Qed.

Lemma run_text_compatible (text buffer written : str) :
  Docx.xml_compatible text = true -> Docx.xml_compatible buffer = true ->
  Docx.run_text text buffer written = (written ++ buffer ++ text, Ok ()).
Proof.
  revert buffer written. induction text as [|c text IH]; intros buffer written Ht Hb.
  - cbn [Docx.run_text]. by rewrite set_text_compatible, app_nil_r.
  - cbn [Docx.run_text]. apply andb_true_iff in Ht as [Hc Ht].
    destruct (Docx.separator c).
    + rewrite set_text_compatible, IH by done. by rewrite <- !app_assoc.
    + rewrite IH; [by rewrite <- !app_assoc | done |].
      rewrite xml_compatible_app, Hb. cbn. by rewrite Hc.
Qed.

(** A text of accepted characters becomes a paragraph. *)
Lemma add_paragraph_compatible (text : str) (d : Docx.Document) :
  Docx.xml_compatible text = true ->
  Docx.add_paragraph text d = (d ++ [Docx.Paragraph text], Ok ()).
Proof.
  intros H. unfold Docx.add_paragraph. by rewrite run_text_compatible.
Qed.

(** In either case one paragraph is appended, and neither it nor the
    outcome depends on the document so far. *)
Lemma add_paragraph_appends (text : str) (d : Docx.Document) :
  Docx.add_paragraph text d =
  (d ++ fst (Docx.add_paragraph text []), snd (Docx.add_paragraph text [])).
Proof.
  unfold Docx.add_paragraph. by destruct (Docx.run_text text [] []) as [written [[]|e]].
Qed.

Lemma add_paragraph_one (text : str) :
  exists written, fst (Docx.add_paragraph text []) = [Docx.Paragraph written].
Proof.
  unfold Docx.add_paragraph.
  destruct (Docx.run_text text [] []) as [written [[]|e]]; eauto.
Qed.

Lemma decimal_compatible (d : Decimal.uint) :
  Docx.xml_compatible (lit (NilEmpty.string_of_uint d)) = true.
Proof. induction d; [done|..]; exact IHd. Qed.

Lemma str_of_int_compatible (i : Z) : Docx.xml_compatible (Py.str_of_int i) = true.
Proof.
  unfold Py.str_of_int, NilZero.string_of_int, NilZero.string_of_uint.
  destruct (Z.to_int i) as [d|d]; destruct d; try done;
    apply (decimal_compatible (_ d)) || apply decimal_compatible.
Qed.

Lemma header_compatible (i : Z) :
  Docx.xml_compatible (lit "--- Question " ++ Py.str_of_int i ++ lit " ---") = true.
Proof. by rewrite !xml_compatible_app, str_of_int_compatible. Qed.

Section Assembly.

Context (w : World).

(** The [try] block only appends, and what it appends and whether it
    raises do not depend on the document so far. *)
Lemma embed_image_appends (img_url : str) (d : Docx.Document) :
  embed_image w img_url d =
  (d ++ fst (embed_image w img_url []), snd (embed_image w img_url [])).
Proof.
  unfold embed_image. destruct (Py.startswith img_url (lit "http")).
  - rewrite !docx_bind_unfold. unfold Docx.lift.
    destruct (requests_get w img_url) as [response|e]; simpl; [|by rewrite app_nil_r].
    rewrite !docx_bind_unfold.
    destruct (raise_for_status response); simpl; [|by rewrite app_nil_r].
    unfold Docx.add_picture. by destruct (load_image w _).
  - rewrite !docx_bind_unfold. unfold Docx.lift.
    destruct (path_exists w img_url) as [[|]|e]; cbn [fst snd app];
      [| |by rewrite app_nil_r].
    + unfold Docx.add_picture. by destruct (load_image w _).
    + apply add_paragraph_appends.
Qed.

(** A line only appends, and its blocks and its outcome do not depend on
    the document so far. *)
Lemma add_line_appends (line : str) (d : Docx.Document) :
  add_line w line d = (d ++ line_blocks w line, line_result w line).
Proof.
  unfold line_blocks, line_result, add_line.
  destruct (Py.startswith (Py.strip line) (lit "![](") &&
            Py.endswith (Py.strip line) (lit ")")); [|apply add_paragraph_appends].
  unfold Docx.try_except. rewrite (embed_image_appends _ d).
  destruct (embed_image w _ []) as [bs [[]|e]]; cbn [fst snd app]; [done|].
  rewrite (add_paragraph_appends _ (d ++ bs)), (add_paragraph_appends _ bs).
  cbn [fst snd]. by rewrite <- app_assoc.
Qed.


Lemma for_each_lines (lines : list str) (d : Docx.Document) :
  Forall (fun line => line_result w line = Ok ()) lines ->
  Docx.for_each lines (add_line w) d = (d ++ concat (map (line_blocks w) lines), Ok ()).
Proof.
  intros H. revert d. induction H as [|line lines Hline _ IH]; intros d; simpl.
  - by rewrite app_nil_r.
  - rewrite docx_bind_unfold, add_line_appends, Hline, IH. by rewrite <- app_assoc.
Qed.

Lemma for_each_lines_inv (lines : list str) (d : Docx.Document) :
  snd (Docx.for_each lines (add_line w) d) = Ok () ->
  Forall (fun line => line_result w line = Ok ()) lines.
Proof.
  revert d. induction lines as [|line lines IH]; intros d; [by intros; apply Forall_nil_2|].
  cbn [Docx.for_each]. rewrite docx_bind_unfold, add_line_appends.
  destruct (line_result w line) as [[]|e] eqn:E; [|done].
  intros H. apply Forall_cons. split; [done | by eapply IH].
Qed.

Lemma add_output_appends (numbered : Z * str) (d : Docx.Document) :
  Forall (fun line => line_result w line = Ok ()) (Py.splitlines (snd numbered)) ->
  add_output w numbered d = (d ++ section_blocks w numbered, Ok ()).
Proof.
  destruct numbered as [i out]. cbn [snd]. intros H.
  unfold add_output, section_blocks.
  rewrite docx_bind_unfold, add_paragraph_compatible by apply header_compatible.
  rewrite for_each_lines by done. cbn [fst snd]. by rewrite <- app_assoc.
Qed.

Lemma add_output_inv (numbered : Z * str) (d : Docx.Document) :
  snd (add_output w numbered d) = Ok () ->
  Forall (fun line => line_result w line = Ok ()) (Py.splitlines (snd numbered)).
Proof.
  destruct numbered as [i out]. cbn [snd]. unfold add_output.
  rewrite docx_bind_unfold, add_paragraph_compatible by apply header_compatible.
  apply for_each_lines_inv.
Qed.

Lemma for_each_outputs (numbered : list (Z * str)) (d : Docx.Document) :
  Forall (fun nq => Forall (fun line => line_result w line = Ok ())
                      (Py.splitlines (snd nq))) numbered ->
  Docx.for_each numbered (add_output w) d =
  (d ++ concat (map (section_blocks w) numbered), Ok ()).
Proof.
  intros H. revert d. induction H as [|x numbered Hx _ IH]; intros d; simpl.
  - by rewrite app_nil_r.
  - rewrite docx_bind_unfold, add_output_appends, IH by done. by rewrite <- app_assoc.
Qed.

Lemma for_each_outputs_inv (numbered : list (Z * str)) (d : Docx.Document) :
  snd (Docx.for_each numbered (add_output w) d) = Ok () ->
  Forall (fun nq => Forall (fun line => line_result w line = Ok ())
                      (Py.splitlines (snd nq))) numbered.
Proof.
  revert d. induction numbered as [|x numbered IH]; intros d;
    [by intros; apply Forall_nil_2|].
  cbn [Docx.for_each]. rewrite docx_bind_unfold.
  destruct (add_output w x d) as [d' [[]|e]] eqn:E; [|done].
  intros H. apply Forall_cons. split; [|by eapply IH].
  apply (add_output_inv x d). by rewrite E.
Qed.

Lemma enumerate_lines {A} (P : A -> Prop) (xs : list A) (start : Z) :
  Forall (fun numbered => P (snd numbered)) (Py.enumerate xs start) <-> Forall P xs.
Proof.
  revert start. induction xs as [|x xs IH]; intros start; simpl.
  - split; intros _; apply Forall_nil_2.
  - rewrite !Forall_cons, IH. done.
Qed.

Lemma build_document_heading (outputs : list str) :
  build_document w outputs =
  Docx.for_each (Py.enumerate outputs 1) (add_output w)
    [Docx.Heading (lit "Generated Questions") 1].
Proof. reflexivity. Qed.

(** When every line is added without raising, the document is the heading
    followed by the section of each output in turn. *)
Lemma build_document_sections (outputs : list str) :
  lines_added w outputs ->
  build_document w outputs =
  (Docx.Heading (lit "Generated Questions") 1
     :: concat (map (section_blocks w) (Py.enumerate outputs 1)),
   Ok ()).
Proof.
  intros H. rewrite build_document_heading, for_each_outputs; [done|].
  exact (proj2 (enumerate_lines
                  (fun out => Forall (fun line => line_result w line = Ok ())
                                (Py.splitlines out)) outputs 1) H).
Qed.

(** And only then is the document built. *)
Lemma build_document_inv (outputs : list str) :
  snd (build_document w outputs) = Ok () -> lines_added w outputs.
Proof.
  rewrite build_document_heading. intros H%for_each_outputs_inv.
  exact (proj1 (enumerate_lines
                  (fun out => Forall (fun line => line_result w line = Ok ())
                                (Py.splitlines out)) outputs 1) H).
Qed.

(** A line of accepted characters without the shape of an image reference
    is a paragraph. *)
Lemma add_line_text (line : str) (d : Docx.Document) :
  image_reference line = None -> Docx.xml_compatible line = true ->
  add_line w line d = (d ++ [Docx.Paragraph line], Ok ()).
Proof.
  unfold image_reference, add_line.
  destruct (Py.startswith _ _ && Py.endswith _ _); [done|].
  intros _ H. by apply add_paragraph_compatible.
Qed.






Lemma add_line_parts (line : str) (blocks : list Docx.block) (r : result unit) :
  (forall d, add_line w line d = (d ++ blocks, r)) ->
  line_blocks w line = blocks /\ line_result w line = r.
Proof. intros H. unfold line_blocks, line_result. by rewrite (H []). Qed.

(** Once the document is built, saving writes the one file and makes no
    directory. *)
Lemma save_to_docx_written (outputs : list str) (path : Docx.path)
    (disk : Docx.filesystem) :
  snd (build_document w outputs) = Ok () ->
  path ∉ Docx.dirs disk -> Docx.parent path ∈ Docx.dirs disk ->
  save_to_docx w outputs path disk =
  ({| Docx.dirs := Docx.dirs disk;
      Docx.files := <[path := fst (build_document w outputs)]> (Docx.files disk) |},
   Ok ()).
Proof.
  intros Hb Hp Hparent. unfold save_to_docx.
  destruct (build_document w outputs) as [doc [[]|e]]; [|done].
  unfold Docx.save. cbn [fst].
  by rewrite bool_decide_eq_false_2, bool_decide_eq_true_2.
Qed.



End Assembly.

(** ** The output directory *)

Lemma elem_of_ancestors (p : Docx.path) : p ∈ Docx.ancestors p.
Proof.
  unfold Docx.ancestors. apply list_elem_of_fmap. exists (length p). split.
  - by rewrite firstn_all.
  - apply list_elem_of_In, in_seq. lia.
Qed.

(** It is [init_app] that makes the directory of [OUTPUT_DOCX]. *)
Lemma init_app_directory (w : World) (use_local_model : bool) (st st' : app_state) :
  init_app w use_local_model st = (st', Ok ()) ->
  Docx.parent (OUTPUT_DOCX st') ∈ Docx.dirs (fs st').
Proof.
  unfold init_app, Docx.mkdir_parents.
  set (output := home w ++ _).
  destruct (existsb _ _); [intros [=]|].
  assert (Hdir : Docx.parent output
                 ∈ Docx.dirs (fs st) ∪ list_to_set (Docx.ancestors (Docx.parent output))).
  { apply elem_of_union_r. rewrite elem_of_list_to_set. apply elem_of_ancestors. }
  destruct use_local_model; [destruct (which w _)|]; intros [= <-]; exact Hdir.
Qed.

(** So the document of a run, once built, is saved, unless a directory has
    its name. *)
Lemma init_app_then_save (w : World) (use_local_model : bool) (st st' : app_state)
    (outputs : list str) :
  init_app w use_local_model st = (st', Ok ()) ->
  snd (build_document w outputs) = Ok () ->
  OUTPUT_DOCX st' ∉ Docx.dirs (fs st') ->
  snd (save_to_docx w outputs (OUTPUT_DOCX st') (fs st')) = Ok ().
Proof.
  intros Hinit Hbuilt Hfile. rewrite save_to_docx_written; [done|done|done|].
  by eapply init_app_directory.
Qed.

(** * The claims *)

(** ** Examples *)

Example detect_options_five :
  detect_options (lit "2+2? (A) 1 (B) 2 (C) 3 (D) 4 (E) 5, see (A)") = 5.
Proof. by vm_compute. Qed.

Example detect_options_unbracketed : detect_options (lit "A) 1 B) 2 (F) (AB)") = 0.
Proof. by vm_compute. Qed.

Example option_lines_three :
  (t ← build_question_format 3; Ok (option_lines t)) =
  Ok [lit "@option <Option A>"; lit "@option <Option B>"; lit "@@option <Correct Option>"].
Proof. by vm_compute. Qed.

Example decode_replace_ill_formed :
  Utf8.decode Utf8.Replace [226; 128; 65; 240; 159; 152; 128; 255] =
  Ok [65533; 65; 128512; 65533].
Proof. by vm_compute. Qed.

(** ** Option detection *)

(** C2, as stated, fails: with ["(A)"] and ["(a)"] in the text the count
    that takes the two as one is 1, and [detect_options] returns 2. *)
Lemma C2_case_counterexample :
  distinct_markers_nocase (lit "(A) 4 or (a) 5") = 1 /\
  detect_options (lit "(A) 4 or (a) 5") = 2.
Proof. split; by vm_compute. Qed.

(** C2, amended: for every text, [detect_options] returns the number of
    distinct markers ["(X)"], X in A-E or a-e, that occur in it, a marker
    and its twin in the other case counted as two; the result is between 0
    and 10. *)
Theorem C2_detect_options_counts_markers (s : str) :
  detect_options s = distinct_markers s /\ 0 <= detect_options s <= 10.
Proof. split; [apply detect_options_distinct | apply detect_options_bounds]. Qed.

(** ** The template *)

(** C1, as stated, fails: for an option count of 0 no template with one
    [@@option] line is returned. *)
Lemma C1_zero_options_counterexample :
  ~ exists t, build_question_format 0 = Ok t /\ count_correct t = 1 /\ count_lettered t = 0.
Proof.
  intros (t & Ht & Hc & _). rewrite build_question_format_ok in Ht by lia.
  injection Ht as <-. revert Hc. by vm_compute.
Qed.

(** C1, amended: for an option count of 0 the template has no option tag at
    all, neither an [@@option] line nor a lettered [@option] line; the line
    of the option block is empty. *)
Theorem C1_zero_options_no_option_tag :
  exists t,
    build_question_format 0 = Ok t /\
    t = Py.join [nl] (format_head ++ [[]] ++ format_tail) /\
    option_lines t = [] /\ count_correct t = 0 /\ count_lettered t = 0.
Proof.
  eexists. split; [by apply build_question_format_ok|].
  split; [done|]. repeat split; by vm_compute.
Qed.

(** C5, as stated, fails: for 1114049 options the label of index 1114047
    would be [chr(1114112)], which raises, and no template is returned. *)
Lemma C5_chr_range_counterexample :
  build_question_format 1114049 =
  Raise (Exn (lit "ValueError") (lit "chr() arg not in range(0x110000)")).
Proof. apply build_question_format_raises. lia. Qed.

(** C5, amended: for every option count [n] from 1 to 1114048 the template
    is returned, and its option lines are the [n - 1] lettered tags, the
    one of index [i] labelled [chr(65 + i)], followed by the one
    [@@option] tag: [n - 1] lettered lines and one correct-option line. *)
Theorem C5_option_lines (n : Z) :
  1 <= n <= 1114048 ->
  exists t,
    build_question_format n = Ok t /\
    option_lines t = map lettered_tag (Py.range (n - 1)) ++ [correct_tag] /\
    count_lettered t = n - 1 /\
    count_correct t = 1.
Proof.
  intros H. eexists. split; [apply build_question_format_ok; lia|].
  apply option_lines_format. lia.
Qed.

Lemma C5_option_lines_witness :
  exists t,
    build_question_format 3 = Ok t /\
    option_lines t = map lettered_tag (Py.range (3 - 1)) ++ [correct_tag] /\
    count_lettered t = 3 - 1 /\
    count_correct t = 1.
Proof. apply (C5_option_lines 3). lia. Defined.

(** ** The prompt *)

(** C6: for every base question and order number the prompt is returned,
    has the base question in it as it is, and has every curriculum entry in
    it in the form ["- Subject > Unit > Topic"]. *)
Theorem C6_prompt_contents (base_question : str) (order_num : Z) :
  exists prompt,
    build_prompt base_question order_num = Ok prompt /\
    substring base_question prompt /\
    Forall (fun '(s, u, t) =>
              substring (lit "- " ++ s ++ lit " > " ++ u ++ lit " > " ++ t) prompt)
      CURRICULUM.
Proof.
  destruct (build_prompt_ok base_question order_num) as (above & between & below & ->).
  eexists. split; [done|]. split.
  - apply substring_app_r, substring_app_l, substring_refl.
  - eapply Forall_impl; [apply (curriculum_in_template
      (option_tags (detect_options base_question)))|].
    intros [[s u] t] Hs.
    by apply substring_app_r, substring_app_r, substring_app_r, substring_app_l.
Qed.

(** C9: the prompt does not depend on the order number. *)
Theorem C9_order_number_unused (base_question : str) (m n : Z) :
  build_prompt base_question m = build_prompt base_question n.
Proof. reflexivity. Qed.

(** ** The generation call *)

(** C3, as stated, fails: a generator that exits with status 1 and prints
    nothing makes [call_llm] return the empty string, and one that prints
    bytes that are no UTF-8 text makes it return them decoded with U+FFFD;
    neither raises. *)
Lemma C3_silent_failure_counterexample :
  (exists process,
     subprocess_run offline [lit "ollama"; lit "run"; LOCAL_MODEL] (lit "2+2?") = Ok process /\
     returncode process = 1 /\
     call_llm offline (lit "2+2?") true = Ok []) /\
  (exists process,
     subprocess_run garbled [lit "ollama"; lit "run"; LOCAL_MODEL] (lit "2+2?") = Ok process /\
     raised (Utf8.decode Utf8.Strict (stdout process)) = true /\
     call_llm garbled (lit "2+2?") true = Ok [65533; 111; 107]).
Proof.
  split; eexists; (split; [reflexivity|]); split; by vm_compute.
Qed.

(** C3, amended: with external generation enabled and a prompt that can be
    encoded, an error starting the process reaches the caller as it is;
    once the process has run, [call_llm] returns its standard output,
    decoded with invalid bytes replaced and stripped, whatever the exit
    status: a non-zero exit and malformed bytes raise nothing. *)
Theorem C3_generation_outcomes (w : World) (prompt : str) (input : bytes) :
  Utf8.encode prompt = Ok input ->
  match subprocess_run w [lit "ollama"; lit "run"; LOCAL_MODEL] input with
  | Raise e => call_llm w prompt true = Raise e
  | Ok process =>
      exists text,
        Utf8.decode Utf8.Replace (stdout process) = Ok text /\
        call_llm w prompt true = Ok (Py.strip text)
  end.
Proof.
  intros Henc.
  destruct (subprocess_run w _ input) as [process|e] eqn:Hrun.
  - by eapply call_llm_completed.
  - by eapply call_llm_not_started.
Qed.

Lemma C3_generation_outcomes_witness :
  exists text,
    Utf8.decode Utf8.Replace [255; 111; 107] = Ok text /\
    call_llm garbled (lit "2+2?") true = Ok (Py.strip text).
Proof.
  apply (C3_generation_outcomes garbled (lit "2+2?") (lit "2+2?")).
  vm_compute. reflexivity.
Defined.

(** ** Document assembly *)













(** * Further properties *)

(** ** Option detection *)

Lemma filter_length_mono {A} (f g : A -> bool) (l : list A) :
  (forall x, f x = true -> g x = true) ->
  (length (List.filter f l) <= length (List.filter g l))%nat.
Proof.
  intros H. induction l as [|x l IH]; [done|].
  rewrite !filter_cons_bool. destruct (f x) eqn:E.
  - rewrite (H x E). simpl. lia.
  - destruct (g x); simpl; lia.
Qed.

(** X1: text put before or after a text never lowers its option count. *)
Theorem X1_detect_options_monotone (before s after : str) :
  detect_options s <= detect_options (before ++ s ++ after).
Proof.
  rewrite !detect_options_distinct. unfold distinct_markers.
  apply inj_le, filter_length_mono. intros m Hm.
  apply contains_spec. apply contains_spec in Hm.
  by apply substring_app_r, substring_app_l.
Qed.

(** X2: the option count is 0 exactly when none of the ten markers occurs
    in the text. *)
Theorem X2_detect_options_zero (s : str) :
  detect_options s = 0 <-> Forall (fun m => ~ substring m s) markers.
Proof.
  rewrite detect_options_distinct. unfold distinct_markers.
  rewrite Forall_forall. split.
  - intros H m Hm Hs.
    assert (Hin : m ∈ List.filter (fun m => Py.contains s m) markers).
    { apply elem_of_filter_bool. split; [done | by apply contains_spec]. }
    destruct (List.filter _ markers); [by apply elem_of_nil in Hin | simpl in H; lia].
  - intros H.
    assert (Hnil : List.filter (fun m => Py.contains s m) markers = []).
    { destruct (List.filter _ markers) as [|m l] eqn:E; [done|]. exfalso.
      assert (Hin : m ∈ List.filter (fun m => Py.contains s m) markers)
        by (rewrite E; apply list_elem_of_here).
      apply elem_of_filter_bool in Hin as [Hm Hc]. apply (H m Hm).
      by apply contains_spec. }
    by rewrite Hnil.
Qed.

(** X3: the option count lies between the number of letters A to E that
    have a marker in the text in some case and twice that number. *)
Theorem X3_detect_options_and_letters (s : str) :
  distinct_markers_nocase s <= detect_options s <= 2 * distinct_markers_nocase s.
Proof.
  rewrite detect_options_distinct.
  unfold distinct_markers, distinct_markers_nocase, markers, option_letters.
  cbn [map]. rewrite !filter_cons_bool. cbn [List.filter].
  change (65 + 32) with 97. change (66 + 32) with 98. change (67 + 32) with 99.
  change (68 + 32) with 100. change (69 + 32) with 101.
  destruct (Py.contains s (marker 65)), (Py.contains s (marker 66)),
    (Py.contains s (marker 67)), (Py.contains s (marker 68)),
    (Py.contains s (marker 69)), (Py.contains s (marker 97)),
    (Py.contains s (marker 98)), (Py.contains s (marker 99)),
    (Py.contains s (marker 100)), (Py.contains s (marker 101));
    cbn [orb length]; lia.
Qed.

(** ** The template *)

(** X4: the template is returned exactly for the option counts up to
    1114048; beyond, [chr] raises. *)
Theorem X4_template_returned (n : Z) :
  (exists t, build_question_format n = Ok t) <-> n <= 1114048.
Proof.
  split.
  - intros [t Ht]. destruct (Z.le_gt_cases n 1114048) as [|Hn]; [done|].
    rewrite build_question_format_raises in Ht by lia. discriminate.
  - intros Hn. eexists. by apply build_question_format_ok.
Qed.

(** X5: a negative option count gives the template of the count 0. *)
Theorem X5_negative_count (n : Z) :
  n <= 0 -> build_question_format n = build_question_format 0.
Proof.
  intros Hn. rewrite !build_question_format_ok by lia.
  by rewrite (option_tags_none n), (option_tags_none 0) by lia.
Qed.

Lemma X5_negative_count_witness :
  build_question_format (-3) = build_question_format 0.
Proof. apply (X5_negative_count (-3)). lia. Defined.

(** X6: [textwrap.dedent] removes no indentation from the template, since
    the curriculum entries after the first start at the first column: the
    lines of the returned template are the lines of the f-string, their
    four leading spaces kept, with the two whitespace-only lines emptied;
    of the option tags only the first is indented. *)
Theorem X6_template_lines (n : Z) :
  n <= 1114048 ->
  exists t,
    build_question_format n = Ok t /\
    Py.split_nl t = format_head ++ option_block_lines (option_tags n) ++ format_tail.
Proof.
  intros Hn. eexists. split; [by apply build_question_format_ok|].
  apply split_nl_join; [done|]. apply format_lines_no_nl, option_tags_shaped.
Qed.

Lemma X6_template_lines_witness :
  exists t,
    build_question_format 2 = Ok t /\
    Py.split_nl t = format_head ++ option_block_lines (option_tags 2) ++ format_tail.
Proof. apply (X6_template_lines 2). lia. Defined.

(** X7: for every base question, the template built for its option count
    has as many option lines, lettered and correct together, as options
    were detected. *)
Theorem X7_option_lines_match_detection (base_question : str) :
  exists t,
    build_question_format (detect_options base_question) = Ok t /\
    count_lettered t + count_correct t = detect_options base_question.
Proof.
  pose proof (detect_options_bounds base_question) as Hb.
  eexists. split; [apply build_question_format_ok; lia|].
  destruct (Z.eq_dec (detect_options base_question) 0) as [-> | Hne].
  - by vm_compute.
  - destruct (option_lines_format (detect_options base_question)) as (_ & -> & ->); lia.
Qed.

(** ** The prompt *)

(** X8: the prompt is the fixed text in three parts, with the base
    question after the line ["Base Question:"] and the template for its
    option count after the line that announces the format. *)
Theorem X8_prompt_framing (base_question : str) (order_num : Z) :
  exists t,
    build_question_format (detect_options base_question) = Ok t /\
    build_prompt base_question order_num =
    Ok (prompt_above ++ base_question ++ prompt_between ++ t ++ prompt_below).
Proof.
  pose proof (detect_options_bounds base_question) as Hb.
  eexists. split; [apply build_question_format_ok; lia|].
  unfold build_prompt. rewrite build_question_format_ok by lia. reflexivity.
Qed.

(** ** The generation call *)

Lemma lstrip_head (s : str) :
  Py.lstrip s = [] \/ exists c s', Py.lstrip s = c :: s' /\ Py.isspace c = false.
Proof.
  induction s as [|c s IH]; [by left|]. simpl.
  destruct (Py.isspace c) eqn:E; [done|]. right. by exists c, s.
Qed.

Lemma lstrip_fixed (c : Z) (s : str) :
  Py.isspace c = false -> Py.lstrip (c :: s) = c :: s.
Proof. intros H. simpl. by rewrite H. Qed.

Lemma lstrip_snoc (l : str) (c : Z) :
  Py.isspace c = false -> Py.lstrip (l ++ [c]) = Py.lstrip l ++ [c].
Proof.
  intros H. induction l as [|d l IH]; simpl.
  - by rewrite H.
  - by destruct (Py.isspace d).
Qed.

Lemma lstrip_idem (s : str) : Py.lstrip (Py.lstrip s) = Py.lstrip s.
Proof.
  destruct (lstrip_head s) as [-> | (c & s' & -> & Hc)]; [done|].
  by apply lstrip_fixed.
Qed.

Lemma rstrip_idem (s : str) : Py.rstrip (Py.rstrip s) = Py.rstrip s.
Proof. unfold Py.rstrip. by rewrite rev_involutive, lstrip_idem. Qed.

(** Stripping the right end leaves a stripped left end as it is. *)
Lemma rstrip_keeps_head (c : Z) (s : str) :
  Py.isspace c = false -> exists s', Py.rstrip (c :: s) = c :: s'.
Proof.
  intros H. unfold Py.rstrip. simpl rev. rewrite lstrip_snoc by done.
  rewrite rev_app_distr. simpl. eauto.
Qed.

Lemma strip_idem (s : str) : Py.strip (Py.strip s) = Py.strip s.
Proof.
  unfold Py.strip.
  destruct (lstrip_head s) as [-> | (c & s' & -> & Hc)]; [done|].
  destruct (rstrip_keeps_head c s' Hc) as [s'' E]. rewrite E.
  rewrite lstrip_fixed by done. by rewrite <- E, rstrip_idem.
Qed.

(** X9: in either mode, the text [call_llm] returns has no white space at
    its ends. *)
Theorem X9_generated_text_is_stripped (w : World) (prompt : str)
    (use_local_model : bool) (text : str) :
  call_llm w prompt use_local_model = Ok text -> Py.strip text = text.
Proof.
  unfold call_llm. destruct use_local_model.
  - destruct (Utf8.encode prompt) as [input|]; [|done]. simpl.
    destruct (subprocess_run w _ input) as [process|]; [|done]. simpl.
    destruct (Utf8.decode Utf8.Replace (stdout process)) as [decoded|]; [|done].
    intros [= <-]. apply strip_idem.
  - intros [= <-]. by vm_compute.
Qed.

Lemma X9_generated_text_is_stripped_witness :
  Py.strip [65533; 111; 107] = [65533; 111; 107].
Proof.
  apply (X9_generated_text_is_stripped garbled (lit "2+2?") true). by vm_compute.
Defined.

Lemma encode_char_error (c : Z) (e : exn) :
  Utf8.encode_char c = Raise e -> e = Utf8.encode_error.
Proof.
  unfold Utf8.encode_char.
  repeat match goal with |- context [if ?b then _ else _] => destruct b end;
    by intros [= <-].
Qed.

Lemma encode_char_surrogate (c : Z) :
  in_range 55296 57343 c = true -> Utf8.encode_char c = Raise Utf8.encode_error.
Proof.
  unfold Utf8.encode_char, in_range. rewrite andb_true_iff, !Z.leb_le. intros H.
  destruct (Z.leb_spec c 127); [lia|]. rewrite andb_false_r.
  destruct (Z.leb_spec c 2047); [lia|]. rewrite andb_false_r.
  destruct (Z.leb_spec 55296 c); [|lia]. destruct (Z.leb_spec c 57343); [|lia]. done.
Qed.

Lemma encode_raises (s : str) (c : Z) :
  c ∈ s -> Utf8.encode_char c = Raise Utf8.encode_error ->
  Utf8.encode s = Raise Utf8.encode_error.
Proof.
  intros Hin Hc. induction s as [|d s IH]; [by apply elem_of_nil in Hin|].
  simpl. destruct (Utf8.encode_char d) as [b|e] eqn:E.
  - simpl. apply elem_of_cons in Hin as [-> | Hin]; [congruence|].
    by rewrite IH.
  - simpl. by rewrite (encode_char_error d e E).
Qed.

(** X10: a prompt with a surrogate code point makes [call_llm] raise
    [UnicodeEncodeError] whatever the machine: the process is not run. *)
Theorem X10_surrogate_prompt (w : World) (prompt : str) (c : Z) :
  c ∈ prompt -> in_range 55296 57343 c = true ->
  call_llm w prompt true = Raise Utf8.encode_error.
Proof.
  intros Hin Hc. unfold call_llm.
  by rewrite (encode_raises prompt c Hin (encode_char_surrogate c Hc)).
Qed.

Lemma X10_surrogate_prompt_witness :
  call_llm offline (lit "x = " ++ [56832]) true = Raise Utf8.encode_error.
Proof.
  apply (X10_surrogate_prompt offline (lit "x = " ++ [56832]) 56832).
  - apply (bool_decide_unpack _). by vm_compute.
  - reflexivity.
Defined.

Lemma encode_ascii (s : str) :
  Forall (fun c => 0 <= c <= 127) s -> Utf8.encode s = Ok s.
Proof.
  induction 1 as [|c s Hc _ IH]; [done|]. simpl.
  unfold Utf8.encode_char, in_range.
  destruct (Z.leb_spec 0 c); [|lia]. destruct (Z.leb_spec c 127); [|lia].
  simpl. by rewrite IH.
Qed.

Lemma decode_ascii (mode : Utf8.errors) (bs : bytes) :
  Forall (fun b => 0 <= b <= 127) bs -> Utf8.decode mode bs = Ok bs.
Proof.
  induction 1 as [|b bs Hb _ IH]; [done|]. cbn [Utf8.decode]. unfold in_range.
  destruct (Z.leb_spec 0 b); [|lia]. destruct (Z.leb_spec b 127); [|lia].
  simpl. by rewrite IH.
Qed.

(** X11: with an ASCII prompt the process is given the characters of the
    prompt as its input, and when its output is ASCII too, [call_llm]
    returns that output stripped, whatever the exit status. *)
Theorem X11_ascii_passes_through (w : World) (prompt : str) (process : CompletedProcess) :
  Forall (fun c => 0 <= c <= 127) prompt ->
  subprocess_run w [lit "ollama"; lit "run"; LOCAL_MODEL] prompt = Ok process ->
  Forall (fun b => 0 <= b <= 127) (stdout process) ->
  call_llm w prompt true = Ok (Py.strip (stdout process)).
Proof.
  intros Hp Hrun Hout. unfold call_llm. rewrite (encode_ascii prompt Hp). simpl.
  rewrite Hrun. simpl. by rewrite (decode_ascii _ _ Hout).
Qed.

Lemma X11_ascii_passes_through_witness :
  call_llm offline (lit "2+2?") true =
  Ok (Py.strip (stdout {| returncode := 1; stdout := [];
                          stderr := lit "Error: model not found" |})).
Proof.
  apply (X11_ascii_passes_through offline (lit "2+2?")).
  - apply (bool_decide_unpack _). by vm_compute.
  - reflexivity.
  - apply Forall_nil_2.
Defined.

(** ** Document assembly *)

Lemma enumerate_snd {A} (P : A -> Prop) (xs : list A) (start : Z) :
  Forall P xs -> Forall (fun numbered => P (snd numbered)) (Py.enumerate xs start).
Proof.
  intros H. revert start. induction H as [|x xs Hx _ IH]; intros start; simpl.
  - apply Forall_nil_2.
  - apply Forall_cons. split; [done | apply IH].
Qed.

Lemma enumerate_app {A} (xs ys : list A) (start : Z) :
  Py.enumerate (xs ++ ys) start =
  Py.enumerate xs start ++ Py.enumerate ys (start + Z.of_nat (length xs)).
Proof.
  revert start. induction xs as [|x xs IH]; intros start; simpl.
  - by rewrite Z.add_0_r.
  - rewrite IH. do 3 f_equal. lia.
Qed.

(** X12: outputs all of whose lines are of characters that python-docx
    accepts and none of whose lines has the shape of an image reference
    give, on every machine, the heading and then, for each output, its
    header and one paragraph per line, the line as it is. *)
Theorem X12_text_outputs (w : World) (outputs : list str) :
  Forall (fun out =>
            Forall (fun line =>
                      image_reference line = None /\ Docx.xml_compatible line = true)
              (Py.splitlines out)) outputs ->
  build_document w outputs =
  (Docx.Heading (lit "Generated Questions") 1
     :: concat (map text_section (Py.enumerate outputs 1)),
   Ok ()).
Proof.
  intros H. rewrite build_document_sections.
  - do 3 f_equal. apply map_ext_Forall.
    eapply Forall_impl; [apply (enumerate_snd _ outputs 1 H)|].
    intros [i out] Hlines. unfold section_blocks, text_section. cbn [fst snd] in *.
    f_equal. induction Hlines as [|line lines [Hline Hc] _ IH]; [done|].
    cbn [map concat]. rewrite IH.
    destruct (add_line_parts w line [Docx.Paragraph line] (Ok ())) as [-> _]; [|done].
    intros d. by apply add_line_text.
  - eapply Forall_impl; [exact H|]. intros out Hlines.
    eapply Forall_impl; [exact Hlines|]. intros line [Hline Hc].
    destruct (add_line_parts w line [Docx.Paragraph line] (Ok ())) as [_ ->]; [|done].
    intros d. by apply add_line_text.
Qed.

Lemma X12_text_outputs_witness :
  build_document offline [lit "@title T" ++ [nl] ++ lit "@question 1 + 1?"; lit "@title U"] =
  (Docx.Heading (lit "Generated Questions") 1
     :: concat (map text_section
                  (Py.enumerate [lit "@title T" ++ [nl] ++ lit "@question 1 + 1?";
                                 lit "@title U"] 1)),
   Ok ()).
Proof.
  apply (X12_text_outputs offline). apply (bool_decide_unpack _). by vm_compute.
Defined.

Lemma add_paragraph_widths (text : str) :
  Forall (fun b => picture_width b = None \/ picture_width b = Some 4)
    (fst (Docx.add_paragraph text [])).
Proof.
  destruct (add_paragraph_one text) as [written ->]. apply Forall_singleton. by left.
Qed.

Lemma embed_image_widths (w : World) (img_url : str) :
  Forall (fun b => picture_width b = None \/ picture_width b = Some 4)
    (fst (embed_image w img_url [])).
Proof.
  unfold embed_image. destruct (Py.startswith img_url (lit "http")).
  - rewrite !docx_bind_unfold. unfold Docx.lift.
    destruct (requests_get w img_url) as [response|e]; cbn [fst]; [|done].
    rewrite docx_bind_unfold.
    destruct (raise_for_status response); cbn [fst]; [|done].
    unfold Docx.add_picture.
    destruct (load_image w _); cbn [fst app]; apply Forall_singleton;
      first [by right | by left].
  - rewrite !docx_bind_unfold. unfold Docx.lift.
    destruct (path_exists w img_url) as [[|]|e]; cbn [fst]; [| |done].
    + unfold Docx.add_picture.
      destruct (load_image w _); cbn [fst app]; apply Forall_singleton;
        first [by right | by left].
    + apply add_paragraph_widths.
Qed.

Lemma line_blocks_widths (w : World) (line : str) :
  Forall (fun b => picture_width b = None \/ picture_width b = Some 4)
    (line_blocks w line).
Proof.
  unfold line_blocks, add_line.
  destruct (Py.startswith _ _ && Py.endswith _ _); [|apply add_paragraph_widths].
  unfold Docx.try_except.
  pose proof (embed_image_widths w (Py.strip (Py.slice (Py.strip line) 4 (-1)))) as H.
  destruct (embed_image w _ []) as [bs [[]|e]]; cbn [fst] in *; [done|].
  rewrite add_paragraph_appends. cbn [fst]. apply Forall_app. split; [done|].
  apply add_paragraph_widths.
Qed.

Lemma for_each_widths {A} (body : A -> Docx.docx unit) (xs : list A) (d : Docx.Document) :
  (forall x d,
     Forall (fun b => picture_width b = None \/ picture_width b = Some 4) d ->
     Forall (fun b => picture_width b = None \/ picture_width b = Some 4)
       (fst (body x d))) ->
  Forall (fun b => picture_width b = None \/ picture_width b = Some 4) d ->
  Forall (fun b => picture_width b = None \/ picture_width b = Some 4)
    (fst (Docx.for_each xs body d)).
Proof.
  intros Hbody. revert d. induction xs as [|x xs IH]; intros d Hd; [done|].
  cbn [Docx.for_each]. rewrite docx_bind_unfold.
  pose proof (Hbody x d Hd) as Hx.
  destruct (body x d) as [d' [[]|e]]; cbn [fst] in *; [by apply IH | done].
Qed.

Lemma add_line_widths (w : World) (line : str) (d : Docx.Document) :
  Forall (fun b => picture_width b = None \/ picture_width b = Some 4) d ->
  Forall (fun b => picture_width b = None \/ picture_width b = Some 4)
    (fst (add_line w line d)).
Proof.
  intros Hd. rewrite add_line_appends. cbn [fst]. apply Forall_app. split; [done|].
  apply line_blocks_widths.
Qed.

Lemma add_output_widths (w : World) (numbered : Z * str) (d : Docx.Document) :
  Forall (fun b => picture_width b = None \/ picture_width b = Some 4) d ->
  Forall (fun b => picture_width b = None \/ picture_width b = Some 4)
    (fst (add_output w numbered d)).
Proof.
  intros Hd. destruct numbered as [i out]. unfold add_output.
  rewrite docx_bind_unfold, add_paragraph_compatible by apply header_compatible.
  apply for_each_widths; [apply add_line_widths|].
  apply Forall_app. split; [done|]. apply Forall_singleton. by left.
Qed.

(** X13: in every document built, every picture is four inches wide. *)
Theorem X13_picture_width (w : World) (outputs : list str) :
  Forall (fun b => picture_width b = None \/ picture_width b = Some 4)
    (fst (build_document w outputs)).
Proof.
  rewrite build_document_heading.
  apply for_each_widths; [apply add_output_widths|].
  apply Forall_singleton. by left.
Qed.

(** X14: whether it returns or raises, [save_to_docx] makes and removes no
    directory and leaves every file other than the destination as it was. *)
Theorem X14_save_frame (w : World) (outputs : list str) (path : Docx.path)
    (disk : Docx.filesystem) :
  Docx.dirs (fst (save_to_docx w outputs path disk)) = Docx.dirs disk /\
  forall p, p <> path ->
    Docx.files (fst (save_to_docx w outputs path disk)) !! p = Docx.files disk !! p.
Proof.
  unfold save_to_docx. destruct (build_document w outputs) as [doc [[]|e]]; [|done].
  unfold Docx.save.
  destruct (bool_decide (path ∈ Docx.dirs disk)); [done|].
  destruct (bool_decide (Docx.parent path ∈ Docx.dirs disk)); [|done].
  split; [done|]. intros p Hp. cbn [fst Docx.files]. by rewrite lookup_insert_ne.
Qed.




(** X17: when the document of outputs followed by further outputs is
    built, it is the document of the first followed by the sections of the
    further ones, numbered on from where the first stop. *)
Theorem X17_outputs_append (w : World) (outputs more : list str) :
  snd (build_document w (outputs ++ more)) = Ok () ->
  fst (build_document w (outputs ++ more)) =
  fst (build_document w outputs) ++
  concat (map (section_blocks w) (Py.enumerate more (1 + Z.of_nat (length outputs)))).
Proof.
  intros H%build_document_inv. pose proof H as [Ho Hm]%Forall_app.
  rewrite !build_document_sections by done. cbn [fst].
  by rewrite enumerate_app, map_app, concat_app.
Qed.

Lemma X17_outputs_append_witness :
  fst (build_document offline ([lit "a"] ++ [lit "b"; lit "![](c.png)"])) =
  fst (build_document offline [lit "a"]) ++
  concat (map (section_blocks offline)
            (Py.enumerate [lit "b"; lit "![](c.png)"] (1 + Z.of_nat (length [lit "a"])))).
Proof.
  apply (X17_outputs_append offline [lit "a"] [lit "b"; lit "![](c.png)"]).
  vm_compute. reflexivity.
Defined.

Lemma lstrip_spaces (pad s : str) :
  Forall (fun c => Py.isspace c = true) pad -> Py.lstrip (pad ++ s) = Py.lstrip s.
Proof. induction 1 as [|c pad Hc _ IH]; [done|]. simpl. by rewrite Hc. Qed.

Lemma strip_padded (before after inner : str) (c d : Z) (middle : str) :
  Forall (fun c => Py.isspace c = true) before ->
  Forall (fun c => Py.isspace c = true) after ->
  inner = c :: middle ++ [d] -> Py.isspace c = false -> Py.isspace d = false ->
  Py.strip (before ++ inner ++ after) = inner.
Proof.
  intros Hb Ha -> Hc Hd. unfold Py.strip. rewrite lstrip_spaces by done.
  change ((c :: middle ++ [d]) ++ after) with (c :: (middle ++ [d]) ++ after).
  rewrite lstrip_fixed by done. unfold Py.rstrip.
  change (c :: (middle ++ [d]) ++ after) with ((c :: middle ++ [d]) ++ after).
  rewrite rev_app_distr, lstrip_spaces by (by apply Forall_rev).
  change (c :: middle ++ [d]) with ((c :: middle) ++ [d]).
  rewrite rev_app_distr. change (rev [d]) with [d]. cbn [app].
  rewrite lstrip_fixed by done.
  change (d :: rev (c :: middle)) with ([d] ++ rev (c :: middle)).
  by rewrite rev_app_distr, rev_involutive.
Qed.

Lemma slice_reference (r : str) :
  Py.slice (lit "![](" ++ r ++ lit ")") 4 (-1) = r.
Proof.
  unfold Py.slice, Py.slice_index. rewrite !length_app.
  change (length (lit "![](")) with 4%nat. change (length (lit ")")) with 1%nat.
  change (-1 <? 0) with true. change (4 <? 0) with false. cbv iota.
  replace (Z.to_nat (Z.min 4 (Z.of_nat (4 + (length r + 1))))) with 4%nat by lia.
  replace (Z.to_nat (Z.max 0 (Z.of_nat (4 + (length r + 1)) + -1) -
                     Z.min 4 (Z.of_nat (4 + (length r + 1)))))
    with (length r) by lia.
  change (drop 4 (lit "![](" ++ r ++ lit ")")) with (r ++ lit ")").
  by rewrite take_app_length.
Qed.

(** X18: a line that is [![](] ... [)] with white space around it, if any,
    has the shape of an image reference, and its reference is what stands
    between the brackets, stripped. *)
Theorem X18_image_reference_parsed (before after r : str) :
  Forall (fun c => Py.isspace c = true) before ->
  Forall (fun c => Py.isspace c = true) after ->
  image_reference (before ++ (lit "![](" ++ r ++ lit ")") ++ after) = Some (Py.strip r).
Proof.
  intros Hb Ha. unfold image_reference.
  assert (Hs : Py.strip (before ++ (lit "![](" ++ r ++ lit ")") ++ after) =
               lit "![](" ++ r ++ lit ")").
  { by apply (strip_padded before after _ 33 41 (lit "[](" ++ r)). }
  rewrite !Hs, slice_reference.
  change (Py.startswith (lit "![](" ++ r ++ lit ")") (lit "![](")) with true.
  unfold Py.endswith. rewrite !rev_app_distr. by change (rev (lit ")")) with [41].
Qed.

Lemma X18_image_reference_parsed_witness :
  image_reference ([32; 9] ++ (lit "![](" ++ lit " fig 1.png " ++ lit ")") ++ [32]) =
  Some (Py.strip (lit " fig 1.png ")).
Proof.
  apply (X18_image_reference_parsed [32; 9] [32] (lit " fig 1.png "));
    apply (bool_decide_unpack _); by vm_compute.
Defined.

(** X19: a line referring to a local image that exists and loads adds the
    picture, taken from that path, and nothing else. *)
Theorem X19_local_image_embedded (w : World) (line img_url : str) (d : Docx.Document) :
  image_reference line = Some img_url ->
  Py.startswith img_url (lit "http") = false ->
  path_exists w img_url = Ok true ->
  load_image w (Docx.FromPath img_url) = Ok () ->
  add_line w line d = (d ++ [Docx.Picture (Docx.FromPath img_url) 4], Ok ()).
Proof.
  intros Href Hlocal Hexists Hload.
  revert Href. unfold image_reference, add_line.
  destruct (Py.startswith _ _ && Py.endswith _ _); [|done]. intros [= ->].
  unfold Docx.try_except, embed_image. rewrite Hlocal.
  rewrite !docx_bind_unfold. unfold Docx.lift. rewrite Hexists.
  unfold Docx.add_picture. by rewrite Hload.
Qed.

(** X20: a line referring to a remote image that is fetched with a status
    below 400 and loads adds the picture, taken from the bytes received,
    and nothing else. *)
Theorem X20_remote_image_embedded (w : World) (line img_url : str) (data : bytes)
    (d : Docx.Document) :
  image_reference line = Some img_url ->
  Py.startswith img_url (lit "http") = true ->
  fetch w img_url = Ok data ->
  load_image w (Docx.FromStream data) = Ok () ->
  add_line w line d = (d ++ [Docx.Picture (Docx.FromStream data) 4], Ok ()).
Proof.
  intros Href Hremote Hfetch Hload.
  revert Href. unfold image_reference, add_line.
  destruct (Py.startswith _ _ && Py.endswith _ _); [|done]. intros [= ->].
  unfold Docx.try_except, embed_image. rewrite Hremote.
  rewrite !docx_bind_unfold. unfold Docx.lift. revert Hfetch. unfold fetch.
  destruct (requests_get w _) as [response|e]; [|done]. simpl.
  rewrite docx_bind_unfold. destruct (raise_for_status response); [|done].
  simpl. intros [= <-]. unfold Docx.add_picture. by rewrite Hload.
Qed.

Lemma X19_local_image_embedded_witness :
  add_line online (lit "![](fig.png)") [] =
  ([] ++ [Docx.Picture (Docx.FromPath (lit "fig.png")) 4], Ok ()).
Proof.
  apply (X19_local_image_embedded online (lit "![](fig.png)") (lit "fig.png")); reflexivity.
Defined.

Lemma X20_remote_image_embedded_witness :
  add_line online (lit "![](https://x/y.png)") [] =
  ([] ++ [Docx.Picture (Docx.FromStream [137; 80; 78; 71]) 4], Ok ()).
Proof.
  apply (X20_remote_image_embedded online (lit "![](https://x/y.png)")
           (lit "https://x/y.png")); reflexivity.
Defined.

(** ** Start-up *)

Lemma parent_snoc (p : Docx.path) (x : str) : Docx.parent (p ++ [x]) = p.
Proof.
  unfold Docx.parent. rewrite length_app. simpl.
  replace (length p + 1 - 1)%nat with (length p) by lia.
  by rewrite take_app_length.
Qed.

Lemma output_parent (w : World) :
  Docx.parent (home w ++ [lit "Documents";
                          lit "generated_questions_" ++ timestamp w ++ lit ".docx"]) =
  home w ++ [lit "Documents"].
Proof.
  change (home w ++ [lit "Documents"; ?f]) with (home w ++ [lit "Documents"] ++ [f]).
  by rewrite app_assoc, parent_snoc.
Qed.

Lemma init_app_frame (w : World) (use_local_model : bool) (st : app_state) :
  let st' := fst (init_app w use_local_model st) in
  OUTPUT_DOCX st' =
    home w ++ [lit "Documents"; lit "generated_questions_" ++ timestamp w ++ lit ".docx"] /\
  Docx.parent (OUTPUT_DOCX st') = home w ++ [lit "Documents"] /\
  Docx.files (fs st') = Docx.files (fs st) /\
  Docx.dirs (fs st) ⊆ Docx.dirs (fs st').
Proof.
  cbv zeta. rewrite <- (output_parent w).
  unfold init_app, Docx.mkdir_parents. set (output := home w ++ _).
  destruct (existsb _ _); [done|].
  destruct use_local_model; [destruct (which w _)|];
    cbn [fst fs OUTPUT_DOCX Docx.files Docx.dirs]; (repeat split; [done..|]);
    apply union_subseteq_l.
Qed.

(** X21: whether it returns or raises, [init_app] sets [OUTPUT_DOCX] to
    [generated_questions_<time>.docx] in the directory [Documents] of the
    home directory, writes and removes no file, and removes no directory. *)
Theorem X21_init_app_state (w : World) (use_local_model : bool) (st : app_state) :
  let st' := fst (init_app w use_local_model st) in
  OUTPUT_DOCX st' =
    home w ++ [lit "Documents"; lit "generated_questions_" ++ timestamp w ++ lit ".docx"] /\
  Docx.parent (OUTPUT_DOCX st') = home w ++ [lit "Documents"] /\
  Docx.files (fs st') = Docx.files (fs st) /\
  Docx.dirs (fs st) ⊆ Docx.dirs (fs st').
Proof. apply init_app_frame. Qed.





(** ** The session *)

Lemma is_done_empty : is_done [] = false.
Proof. by vm_compute. Qed.

Lemma read_content_lines (ls tail lines base_questions : list str) :
  Forall content_line ls ->
  read_questions (ls ++ tail) (Lines lines) base_questions =
  read_questions tail (Lines (lines ++ ls)) base_questions.
Proof.
  intros H. revert lines. induction H as [|l ls [Hl Hd] _ IH]; intros lines.
  - by rewrite app_nil_r.
  - cbn [app read_questions]. rewrite Hd.
    rewrite (bool_decide_eq_false_2 (Py.strip l = [])) by done. cbn [andb].
    rewrite IH. by rewrite <- app_assoc.
Qed.

Lemma read_entered_question (q : list str * str) (tail base_questions : list str) :
  fst q <> [] -> Forall content_line (fst q) ->
  read_questions (entered_question q ++ tail) (Lines []) base_questions =
  read_questions tail (Lines []) (base_questions ++ [question_text q]).
Proof.
  destruct q as [ls img]. cbn [fst snd]. intros Hne Hls.
  unfold entered_question, question_text. cbn [fst snd].
  rewrite <- app_assoc, read_content_lines by done. cbn [app read_questions].
  change (Py.strip []) with (@nil Z).
  rewrite (bool_decide_eq_true_2 (@nil Z = [])) by done.
  rewrite (bool_decide_eq_false_2 (ls = [])) by done. cbn [andb negb].
  rewrite is_done_empty.
  destruct (bool_decide (Py.strip img = [])); by rewrite ?app_nil_r.
Qed.

Lemma read_entered_questions (qs : list (list str * str)) (final : str)
    (base_questions : list str) :
  Forall (fun q => fst q <> [] /\ Forall content_line (fst q)) qs ->
  is_done final = true ->
  read_questions (concat (map entered_question qs) ++ [final]) (Lines []) base_questions =
  Ok (base_questions ++ map question_text qs).
Proof.
  intros H Hfinal. revert base_questions.
  induction H as [|q qs [Hne Hls] _ IH]; intros base_questions.
  - cbn [map concat app read_questions]. rewrite Hfinal.
    rewrite (bool_decide_eq_true_2 (@nil str = [])) by done. cbn [andb negb].
    destruct (bool_decide (Py.strip final = [])); by rewrite app_nil_r.
  - cbn [map concat]. rewrite <- app_assoc, read_entered_question by done.
    rewrite IH. by rewrite <- app_assoc.
Qed.

(** X24: when each base question is entered as one or more lines that are
    neither blank nor ["done"], then an empty line, then the answer about an
    image, and ["done"] in any case of letters comes after the last, the
    questions read are, in order, the lines of each joined by newlines,
    followed by [![](<answer>)] after an empty line when the answer,
    stripped, is not empty. *)
Theorem X24_questions_read (qs : list (list str * str)) (final : str) :
  Forall (fun q => fst q <> [] /\ Forall content_line (fst q)) qs ->
  is_done final = true ->
  read_questions (concat (map entered_question qs) ++ [final]) (Lines []) [] =
  Ok (map question_text qs).
Proof. intros H Hfinal. by rewrite read_entered_questions. Qed.

Lemma X24_questions_read_witness :
  read_questions
    (concat (map entered_question
               [([lit "2+2?"; lit "(A) 3 (B) 4"], lit " fig.png "); ([lit "1+1?"], [])]) ++
     [lit " Done"]) (Lines []) [] =
  Ok (map question_text
        [([lit "2+2?"; lit "(A) 3 (B) 4"], lit " fig.png "); ([lit "1+1?"], [])]).
Proof.
  apply (X24_questions_read
           [([lit "2+2?"; lit "(A) 3 (B) 4"], lit " fig.png "); ([lit "1+1?"], [])]
           (lit " Done")).
  - repeat (apply Forall_cons; split); try apply Forall_nil_2;
      try (split; [done|]); repeat (apply Forall_cons; split);
      try apply Forall_nil_2; split; by vm_compute.
  - by vm_compute.
Defined.

Lemma read_without_done (stdin : list str) (at_ : reading) (base_questions : list str) :
  Forall (fun line => is_done line = false) stdin ->
  match at_ with
  | Lines _ => True
  | Image _ line => is_done line = false
  end ->
  read_questions stdin at_ base_questions = Raise EOFError.
Proof.
  intros H. revert at_ base_questions.
  induction H as [|entered stdin Hd _ IH]; intros at_ base_questions Hat; [done|].
  cbn [read_questions]. destruct at_ as [lines|text line].
  - rewrite Hd.
    destruct (bool_decide (Py.strip entered = []) && negb (bool_decide (lines = []))) eqn:E.
    + apply andb_true_iff in E as [_ E]. apply negb_true_iff in E. rewrite E.
      by apply IH.
    + by apply IH.
  - rewrite Hat. by apply IH.
Qed.

(** X25: without a line that is ["done"], reading the questions ends with
    [EOFError] at the end of standard input, whatever was entered. *)
Theorem X25_input_without_done (stdin : list str) :
  Forall (fun line => is_done line = false) stdin ->
  read_questions stdin (Lines []) [] = Raise EOFError.
Proof. intros H. by apply read_without_done. Qed.

Lemma X25_input_without_done_witness :
  read_questions [lit "2+2?"; []; lit "fig.png"; lit "1+1?"] (Lines []) [] = Raise EOFError.
Proof.
  apply (X25_input_without_done [lit "2+2?"; []; lit "fig.png"; lit "1+1?"]).
  apply (bool_decide_unpack _). by vm_compute.
Defined.

Lemma init_app_no_ollama (w : World) (st : app_state) :
  which w (lit "ollama") = None -> raised (snd (init_app w true st)) = true.
Proof.
  intros H. unfold init_app. destruct (Docx.mkdir_parents _ _) as [disk [[]|e]]; [|done].
  by rewrite H.
Qed.

(** X26: on a machine without [ollama], [main] raises without reading
    standard input, and writes no file. *)
Theorem X26_main_without_ollama (w : World) (stdin : list str) (st : app_state) :
  which w (lit "ollama") = None ->
  main w stdin st = main w [] st /\
  raised (snd (main w stdin st)) = true /\
  Docx.files (fs (fst (main w stdin st))) = Docx.files (fs st).
Proof.
  intros H. pose proof (init_app_no_ollama w st H) as Hraised.
  destruct (init_app_frame w true st) as (_ & _ & Hfiles & _).
  unfold main. destruct (init_app w true st) as [st1 [[]|e]]; [done|].
  cbn [fst snd] in *. done.
Qed.

Lemma X26_main_without_ollama_witness :
  main no_ollama [lit "2+2?"; []; []; lit "done"] fresh_state = main no_ollama [] fresh_state /\
  raised (snd (main no_ollama [lit "2+2?"; []; []; lit "done"] fresh_state)) = true /\
  Docx.files (fs (fst (main no_ollama [lit "2+2?"; []; []; lit "done"] fresh_state))) =
  Docx.files (fs fresh_state).
Proof.
  apply (X26_main_without_ollama no_ollama [lit "2+2?"; []; []; lit "done"] fresh_state).
  reflexivity.
Defined.

Lemma elem_of_enumerate {A} (xs : list A) (x : A) (start : Z) :
  x ∈ xs -> exists i, (i, x) ∈ Py.enumerate xs start.
Proof.
  intros H. revert start. induction H as [x xs|x y xs _ IH]; intros start; simpl.
  - exists start. apply list_elem_of_here.
  - destruct (IH (start + 1)) as [i Hi]. exists i. by apply list_elem_of_further.
Qed.

Lemma generate_raises (w : World) (numbered : list (Z * str)) (results : list str)
    (i : Z) (bq prompt : str) :
  (i, bq) ∈ numbered ->
  build_prompt bq 0 = Ok prompt -> raised (call_llm w prompt true) = true ->
  raised (generate w numbered results) = true.
Proof.
  intros Hin Hp Hr. revert results.
  induction numbered as [|[j q] numbered IH]; intros results;
    [by apply elem_of_nil in Hin|].
  cbn [generate]. apply elem_of_cons in Hin as [[= <- <-] | Hin].
  - change (build_prompt bq i) with (build_prompt bq 0). rewrite Hp. cbn [mbind result_bind].
    by destruct (call_llm w prompt true).
  - destruct (build_prompt q j) as [p|]; [|done]. cbn [mbind result_bind].
    destruct (call_llm w p true) as [out|]; [|done]. cbn [mbind result_bind].
    by apply IH.
Qed.



(** X27: when the generation call raises for one of the questions read,
    [main] raises and writes no file: the texts generated for the other
    questions are not saved. *)
Theorem X27_generation_failure_saves_nothing (w : World) (stdin : list str)
    (st : app_state) (base_questions : list str) (bq prompt : str) :
  read_questions stdin (Lines []) [] = Ok base_questions ->
  bq ∈ base_questions ->
  build_prompt bq 0 = Ok prompt ->
  raised (call_llm w prompt true) = true ->
  raised (snd (main w stdin st)) = true /\
  Docx.files (fs (fst (main w stdin st))) = Docx.files (fs st).
Proof.
  intros Hread Hin Hp Hr.
  destruct (init_app_frame w true st) as (_ & _ & Hfiles & _).
  destruct (elem_of_enumerate base_questions bq 1 Hin) as [i Hi].
  pose proof (generate_raises w _ [] i bq prompt Hi Hp Hr) as Hgen.
  unfold main. destruct (init_app w true st) as [st1 [[]|e]]; cbn [fst snd] in *; [|done].
  rewrite Hread. by destruct (generate w _ []).
Qed.

Lemma X27_generation_failure_saves_nothing_witness :
  raised (snd (main broken_generator [lit "2+2?"; []; []; lit "done"] fresh_state)) = true /\
  Docx.files (fs (fst (main broken_generator [lit "2+2?"; []; []; lit "done"] fresh_state))) =
  Docx.files (fs fresh_state).
Proof.
  eapply (X27_generation_failure_saves_nothing broken_generator
            [lit "2+2?"; []; []; lit "done"] fresh_state [lit "2+2?"] (lit "2+2?")).
  - by vm_compute.
  - apply list_elem_of_here.
  - vm_compute. reflexivity.
  - by vm_compute.
Defined.



(** X29: ["done"] entered right after the lines of a question, with no
    empty line between, ends the session, but only after the question
    about an image has been asked and answered; nothing entered after
    the answer is read. *)
Theorem X29_done_after_lines (ls : list str) (done_line img : str)
    (tail base_questions : list str) :
  ls <> [] -> Forall content_line ls -> is_done done_line = true ->
  read_questions (ls ++ [done_line; img] ++ tail) (Lines []) base_questions =
  Ok (base_questions ++ [question_text (ls, img)]).
Proof.
  intros Hne Hls Hdone. rewrite read_content_lines by done.
  cbn [app read_questions]. rewrite Hdone.
  rewrite (bool_decide_eq_false_2 (ls = [])) by done.
  destruct (bool_decide (Py.strip done_line = []) && negb false);
    unfold question_text; cbn [fst snd];
    destruct (bool_decide (Py.strip img = [])); by rewrite ?app_nil_r.
Qed.

Lemma X29_done_after_lines_witness :
  read_questions ([lit "2+2?"] ++ [lit "DONE"; lit "fig.png"] ++ [lit "ignored"])
    (Lines []) [] =
  Ok ([] ++ [question_text ([lit "2+2?"], lit "fig.png")]).
Proof.
  apply (X29_done_after_lines [lit "2+2?"] (lit "DONE") (lit "fig.png") [lit "ignored"] []).
  - done.
  - apply Forall_singleton. split; by vm_compute.
  - by vm_compute.
Defined.

(** X30: a blank line entered before any line of a question does not end
    the question: it is kept as its first line. *)
Theorem X30_leading_blank_line (blank : str) (ls : list str) (img final : str) :
  Py.strip blank = [] -> Forall content_line ls -> is_done final = true ->
  read_questions (blank :: ls ++ [[]; img; final]) (Lines []) [] =
  Ok [question_text (blank :: ls, img)].
Proof.
  intros Hblank Hls Hfinal. cbn [read_questions].
  rewrite (bool_decide_eq_true_2 (@nil str = [])) by done.
  rewrite andb_false_r.
  assert (Hnd : is_done blank = false).
  { unfold is_done. rewrite Hblank. by vm_compute. }
  rewrite Hnd, read_content_lines by done. cbn [app read_questions].
  change (Py.strip []) with (@nil Z).
  rewrite (bool_decide_eq_true_2 (@nil Z = [])) by done.
  rewrite (bool_decide_eq_false_2 (blank :: ls = [])) by done. cbn [andb negb].
  rewrite is_done_empty, Hfinal.
  rewrite (bool_decide_eq_true_2 (@nil str = [])) by done.
  unfold question_text. cbn [fst snd].
  destruct (bool_decide (Py.strip img = []));
    destruct (bool_decide (Py.strip final = [])); by rewrite ?app_nil_r.
Qed.

Lemma X30_leading_blank_line_witness :
  read_questions ([32] :: [lit "2+2?"] ++ [[]; []; lit "done"]) (Lines []) [] =
  Ok [question_text ([32] :: [lit "2+2?"], [])].
Proof.
  apply (X30_leading_blank_line [32] [lit "2+2?"] [] (lit "done")).
  - by vm_compute.
  - apply Forall_singleton. split; by vm_compute.
  - by vm_compute.
Defined.
